(** * Realtime dimension inspector: [showElementDimensions]

    A shallow embedding of [src/realtime-dimension-inspector.js].  The
    function is a straight-line sequence of calls into the browser (DOM,
    CSSOM, window), so the embedding is a state-and-exception monad over a
    model of the part of the browser the function touches.  Every call
    into the browser is also appended to a trace, which is what the
    ordering properties are stated on. *)

From Stdlib Require Import ZArith QArith Qround Qabs Lqa Ascii String.
From stdpp Require Import base option gmap strings list pretty.

Local Open Scope string_scope.
Local Open Scope Z_scope.
Local Open Scope list_scope.

(** ** Strings *)

(** The double quote character (code point 34) of the template literal
    on line 42. *)
Definition dquote : string := String (Ascii.ascii_of_nat 34) EmptyString.

(** The line feed (code point 10) the template literal on lines 59 to 63
    contains after each of its lines. *)
Definition LF : string := String (Ascii.ascii_of_nat 10) EmptyString.

Fixpoint spaces (n : nat) : string :=
  match n with
  | O => EmptyString
  | S n => String " "%char (spaces n)
  end.

Fixpoint zeros (n : nat) : string :=
  match n with
  | O => EmptyString
  | S n => String "0"%char (zeros n)
  end.

Definition is_digit (c : Ascii.ascii) : bool :=
  let n := Ascii.nat_of_ascii c in (48 <=? n)%nat && (n <=? 57)%nat.

Fixpoint all_digits (s : string) : bool :=
  match s with
  | EmptyString => true
  | String c s => is_digit c && all_digits s
  end.

(** ** Numbers

    A JavaScript Number that is finite is a rational; the model carries
    its exact value.  [window.innerWidth] and [window.innerHeight] are
    integers ([long] in Web IDL), a bounding box's side is a finite
    double. *)

(** Number::toString on an integer below 10^21 in magnitude: its decimal
    digits, with a minus sign when negative.  This is what a template
    literal applies to [vpWidth] and [vpHeight]. *)
Definition Number_toString_int (n : Z) : string := pretty n.

(** 𝔽 on a positive rational of at least 2^53: the nearest number with
    a 53-bit significand, ties to the even significand. *)
Definition binary64_nearest (v : Q) : Z :=
  let e := Z.log2 (Qfloor v) + 1 - 53 in
  let u := 2 ^ e in
  let q := Qfloor (v / inject_Z u)%Q in
  let r := (v - inject_Z (q * u))%Q in
  match (r * 2 ?= inject_Z u)%Q with
  | Lt => q * u
  | Gt => (q + 1) * u
  | Eq => if Z.even q then q * u else (q + 1) * u
  end.

(** One candidate of Number::toString's search: [k] digits [s] scaled by
    10^(n-k) that convert back to [x]. *)
Definition digits_candidate (x : Z) (n k s : Z) : option (Z * Z * Z) :=
  if (10 ^ (k - 1) <=? s) && (s <? 10 ^ k)
     && (binary64_nearest (inject_Z (s * 10 ^ (n - k))) =? x)
  then Some (n, k, s) else None.

(** Of two candidates, the one nearer to [x], the even [s] on a tie. *)
Definition closer (x : Z) (c1 c2 : Z * Z * Z) : Z * Z * Z :=
  let '(n1, k1, s1) := c1 in
  let '(n2, k2, s2) := c2 in
  let d1 := Z.abs (s1 * 10 ^ (n1 - k1) - x) in
  let d2 := Z.abs (s2 * 10 ^ (n2 - k2) - x) in
  if d1 <? d2 then c1
  else if d2 <? d1 then c2
  else if Z.even s1 then c1 else c2.

(** The candidates with [k] digits: [x] has [n0] digits, so [n] is [n0]
    or, when rounding up reaches the next power of ten, [n0 + 1], and
    [s] is next to [x / 10^(n-k)]. *)
Definition digits_at (x : Z) (n0 k : Z) : option (Z * Z * Z) :=
  let cands :=
    omap (λ n, let fl := x / 10 ^ (n - k) in
               match digits_candidate x n k fl, digits_candidate x n k (fl + 1) with
               | Some c1, Some c2 => Some (closer x c1 c2)
               | Some c, None | None, Some c => Some c
               | None, None => None
               end) [n0; n0 + 1] in
  match cands with
  | [] => None
  | c :: cs => Some (foldl (closer x) c cs)
  end.

(** The search, from [k] digits upwards.  Seventeen digits determine a
    double, so the search ends before the fuel does; the integer's own
    digits are what is left otherwise. *)
Fixpoint shortest_digits (x : Z) (n0 : Z) (k : Z) (fuel : nat) : Z * Z * Z :=
  match fuel with
  | O => (n0, n0, x)
  | S fuel =>
      match digits_at x n0 k with
      | Some c => c
      | None => shortest_digits x n0 (k + 1) fuel
      end
  end.

(** Number::toString on a number of at least 10^21 (ECMA-262,
    Number::toString, radix 10): integers [n], [k], [s] with [k] as small
    as possible such that [s] has [k] digits and [s * 10^(n-k)] converts
    to the number; here [n > 21], so the result is in exponential form. *)
Definition Number_toString_exp (x : Q) : string :=
  let x := binary64_nearest x in
  let n0 := Z.of_nat (String.length (pretty x)) in
  let '(n, k, s) := shortest_digits x n0 1 17 in
  let ds := pretty s in
  let e := "e+" +:+ pretty (n - 1) in
  if k =? 1 then ds +:+ e
  else substring 0 1 ds +:+ "." +:+ substring 1 (Z.to_nat k - 1) ds +:+ e.

(** Number.prototype.toFixed (ECMA-262): sign, then either
    Number::toString when the magnitude is at least 10^21, or the digits
    of the integer [n] nearest to [x * 10^f] (the larger one on a tie)
    with a point before the last [f] of them. *)
Definition toFixed (x : Q) (f : nat) : string :=
  let s := if Qlt_le_dec x 0%Q then "-" else "" in
  let x := Qabs x in
  let m :=
    if Qle_bool (inject_Z (10 ^ 21)) x then Number_toString_exp x
    else
      let n := Qfloor (x * inject_Z (10 ^ Z.of_nat f) + (1 # 2))%Q in
      let m := if n =? 0 then "0" else pretty n in
      match f with
      | O => m
      | _ =>
          let k := String.length m in
          let m := if (k <=? f)%nat then zeros (f + 1 - k) +:+ m else m in
          let k := String.length m in
          substring 0 (k - f) m +:+ "." +:+ substring (k - f) f m
      end in
  s +:+ m.

(** ** The browser

    Element objects live in a store indexed by node identifiers, so that
    the overlay and the closure that captures it share one object. *)

Abbreviation NodeId := nat.

(** What [getBoundingClientRect] returns, as far as the function reads
    it. *)
Record DOMRect := { width : Q; height : Q }.

(** The children of an element as the function's own assignments leave
    them: [textContent = s] makes them one text node, [innerHTML = s]
    hands the markup [s] to the HTML parser. *)
Inductive Content :=
| NoContent
| TextContent (text : string)
| InnerHTML (markup : string).

(** An element object.  [style] holds, per property name, the value last
    assigned to [element.style.<property>]. *)
Record Element := {
  tagName : string;
  className : string;
  style : gmap string string;
  content : Content
}.

(** The function object [updateDimensions] (lines 48 to 64): its code is
    fixed, so it is determined by the three variables it captures. *)
Record Closure := {
  cl_element : NodeId;
  cl_resultsBloc : NodeId;
  cl_selector : string
}.

Record ResizeObserver := {
  ro_callback : Closure;
  ro_targets : list NodeId
}.

(** The document and its window.  The document has a body, as it has
    from the moment the parser has reached it; the repository's pages
    call the function once the whole document is parsed. *)
Record Page := {
  nodes : gmap nat Element;
  (** the elements connected to the document, in tree order *)
  document_order : list NodeId;
  (** the children of [document.body] *)
  body_children : list NodeId;
  innerWidth : Z;
  innerHeight : Z;
  (** ["ResizeObserver" in window] *)
  has_ResizeObserver : bool;
  observers : list ResizeObserver;
  (** the listeners added to [window], with their event type *)
  listeners : list (string * Closure)
}.

(** The calls the function makes into the browser. *)
Inductive Call :=
| CallQuerySelector (selector : string)
| CallCreateElement (tag : string) (n : NodeId)
| CallSetClassName (n : NodeId) (v : string)
| CallSetStyle (n : NodeId) (property v : string)
| CallSetTextContent (n : NodeId) (v : string)
| CallSetInnerHTML (n : NodeId) (v : string)
| CallAppendChild (n : NodeId)
| CallInnerWidth
| CallInnerHeight
| CallGetBoundingClientRect (n : NodeId)
| CallHasResizeObserver
| CallNewResizeObserver (cb : Closure)
| CallObserve (observer : nat) (n : NodeId)
| CallAddEventListener (type : string) (cb : Closure).

(** The page together with the calls made so far, oldest first. *)
Record Browser := {
  page : Page;
  trace : list Call
}.

(** What the function relies on the browser for without fixing it: which
    strings are selectors and what they match, and where layout puts an
    element.  The DOM standard has [querySelector] throw a SyntaxError
    when the string does not parse as a selector, and the empty string is
    not a selector; what a selector matches is an element object. *)
Class Host := {
  parse_selector : string → option (Page → NodeId → bool);
  bounding_box : Page → NodeId → DOMRect;
  parse_selector_empty : parse_selector "" = None;
  matches_element : ∀ s matches p n,
    parse_selector s = Some matches → matches p n = true → is_Some (nodes p !! n)
}.

(** The calls that take a measurement, the one that writes a readout,
    and the calls that subscribe to a notification. *)
Definition is_measurement (c : Call) : bool :=
  match c with
  | CallInnerWidth | CallInnerHeight | CallGetBoundingClientRect _ => true
  | _ => false
  end.

Definition is_render (c : Call) : bool :=
  match c with
  | CallSetInnerHTML _ _ => true
  | _ => false
  end.

Definition is_subscription (c : Call) : bool :=
  match c with
  | CallNewResizeObserver _ | CallObserve _ _ | CallAddEventListener _ _ => true
  | _ => false
  end.

(** *** Completions *)

Inductive Exception :=
| SyntaxError (selector : string).

Inductive Completion (A : Type) :=
| Normal (a : A) (st : Browser)
| Throw (e : Exception) (st : Browser).
Arguments Normal {A} a st.
Arguments Throw {A} e st.

Definition M (A : Type) : Type := Browser → Completion A.

Global Instance M_ret : MRet M := λ A a st, Normal a st.
Global Instance M_bind : MBind M := λ A B f m st,
  match m st with
  | Normal a st' => f a st'
  | Throw e st' => Throw e st'
  end.

(** *** Updates of the page *)

Definition with_nodes (f : gmap nat Element → gmap nat Element) (p : Page) : Page :=
  {| nodes := f (nodes p); document_order := document_order p;
     body_children := body_children p;
     innerWidth := innerWidth p; innerHeight := innerHeight p;
     has_ResizeObserver := has_ResizeObserver p;
     observers := observers p; listeners := listeners p |}.

Definition with_tree (f : list NodeId → list NodeId) (p : Page) : Page :=
  {| nodes := nodes p; document_order := f (document_order p);
     body_children := f (body_children p);
     innerWidth := innerWidth p; innerHeight := innerHeight p;
     has_ResizeObserver := has_ResizeObserver p;
     observers := observers p; listeners := listeners p |}.

Definition with_observers (f : list ResizeObserver → list ResizeObserver) (p : Page) : Page :=
  {| nodes := nodes p; document_order := document_order p;
     body_children := body_children p;
     innerWidth := innerWidth p; innerHeight := innerHeight p;
     has_ResizeObserver := has_ResizeObserver p;
     observers := f (observers p); listeners := listeners p |}.

Definition with_listeners (f : list (string * Closure) → list (string * Closure))
    (p : Page) : Page :=
  {| nodes := nodes p; document_order := document_order p;
     body_children := body_children p;
     innerWidth := innerWidth p; innerHeight := innerHeight p;
     has_ResizeObserver := has_ResizeObserver p;
     observers := observers p; listeners := f (listeners p) |}.

Definition with_viewport (w h : Z) (p : Page) : Page :=
  {| nodes := nodes p; document_order := document_order p;
     body_children := body_children p;
     innerWidth := w; innerHeight := h;
     has_ResizeObserver := has_ResizeObserver p;
     observers := observers p; listeners := listeners p |}.

Definition set_className (v : string) (e : Element) : Element :=
  {| tagName := tagName e; className := v; style := style e; content := content e |}.

Definition set_style (property v : string) (e : Element) : Element :=
  {| tagName := tagName e; className := className e;
     style := <[property := v]> (style e); content := content e |}.

Definition set_content (c : Content) (e : Element) : Element :=
  {| tagName := tagName e; className := className e; style := style e; content := c |}.

(** A call that returns [a] and leaves the page as [f] makes it. *)
Definition call {A} (c : Call) (a : A) (f : Page → Page) : M A := λ st,
  Normal a {| page := f (page st); trace := trace st ++ [c] |}.

(** ** The calls into the browser *)

Section Program.
Context `{Host}.

(** [document.querySelector(selector)]: the first match in tree order,
    [None] for JavaScript's [null], or a SyntaxError. *)
Definition document_querySelector (selector : string) : M (option NodeId) := λ st,
  match parse_selector selector with
  | None =>
      Throw (SyntaxError selector)
        {| page := page st; trace := trace st ++ [CallQuerySelector selector] |}
  | Some matches =>
      call (CallQuerySelector selector)
        (List.find (matches (page st)) (document_order (page st))) id st
  end.

(** The three outcomes of the lookup. *)
Inductive Lookup :=
| Rejected
| NoMatch
| Match (e : NodeId).

Definition lookup (selector : string) (p : Page) : Lookup :=
  match parse_selector selector with
  | None => Rejected
  | Some matches =>
      match List.find (matches p) (document_order p) with
      | None => NoMatch
      | Some e => Match e
      end
  end.

(** [document.createElement(tag)]: a new element object, not connected
    to the document, with no class, no inline style and no children. *)
Definition document_createElement (tag : string) : M NodeId := λ st,
  let n := fresh (dom (nodes (page st))) in
  let e := {| tagName := tag; className := ""; style := ∅; content := NoContent |} in
  call (CallCreateElement tag n) n (with_nodes (insert n e)) st.

(** Assignments to an element object.  A node identifier the store does
    not hold cannot come from the source (a reference always has its
    object); [alter] leaves the store as it is there. *)
Definition assign_className (n : NodeId) (v : string) : M () :=
  call (CallSetClassName n v) () (with_nodes (alter (set_className v) n)).

Definition assign_style (n : NodeId) (property v : string) : M () :=
  call (CallSetStyle n property v) () (with_nodes (alter (set_style property v) n)).

Definition assign_textContent (n : NodeId) (v : string) : M () :=
  call (CallSetTextContent n v) () (with_nodes (alter (set_content (TextContent v)) n)).

Definition assign_innerHTML (n : NodeId) (v : string) : M () :=
  call (CallSetInnerHTML n v) () (with_nodes (alter (set_content (InnerHTML v)) n)).

(** Where [appendChild(n)] on the body puts [n]: last among the body's
    children, which is last in tree order; a node that is already there
    is moved. *)
Definition append_node (n : NodeId) (l : list NodeId) : list NodeId :=
  filter (λ m, m ≠ n) l ++ [n].

(** [document.body.appendChild(n)] *)
Definition document_body_appendChild (n : NodeId) : M () :=
  call (CallAppendChild n) () (with_tree (append_node n)).

Definition window_innerWidth : M Z := λ st,
  call CallInnerWidth (innerWidth (page st)) id st.

Definition window_innerHeight : M Z := λ st,
  call CallInnerHeight (innerHeight (page st)) id st.

Definition getBoundingClientRect (n : NodeId) : M DOMRect := λ st,
  call (CallGetBoundingClientRect n) (bounding_box (page st) n) id st.

(** ["ResizeObserver" in window] *)
Definition window_has_ResizeObserver : M bool := λ st,
  call CallHasResizeObserver (has_ResizeObserver (page st)) id st.

(** [new ResizeObserver(cb)]: an observer with no target yet; the result
    is its handle. *)
Definition new_ResizeObserver (cb : Closure) : M nat := λ st,
  call (CallNewResizeObserver cb) (length (observers (page st)))
    (with_observers (λ os, os ++ [{| ro_callback := cb; ro_targets := [] |}])) st.

Definition add_target (n : NodeId) (o : ResizeObserver) : ResizeObserver :=
  {| ro_callback := ro_callback o; ro_targets := append_node n (ro_targets o) |}.

(** [observer.observe(n)] *)
Definition ResizeObserver_observe (observer : nat) (n : NodeId) : M () :=
  call (CallObserve observer n) () (with_observers (alter (add_target n) observer)).

(** [window.addEventListener(type, cb)].  The browser skips a listener
    that is already registered for the type; the function object passed
    at line 79 is created by the very call that registers it, so it never
    is, and the listener is appended. *)
Definition window_addEventListener (type : string) (cb : Closure) : M () :=
  call (CallAddEventListener type cb) () (with_listeners (λ ls, ls ++ [(type, cb)])).

(** ** The function *)

(** The argument of [showElementDimensions]: an object whose [selector]
    and [color], when present, are strings.  [None] is an absent (or
    [undefined]) property. *)
Record Options := {
  opt_selector : option string;
  opt_color : option string
}.

(** [{}] *)
Definition no_options : Options := {| opt_selector := None; opt_color := None |}.

(** Lines 13 and 15: [options = {}] and
    [const { selector = "body", color = "#989898" } = options].  The
    argument is [None] when the call passes none (or [undefined]). *)
Definition resolve_selector (options : option Options) : string :=
  default "body" (opt_selector (default no_options options)).
Definition resolve_color (options : option Options) : string :=
  default "#989898" (opt_color (default no_options options)).

(** Lines 48 to 64. *)
Definition updateDimensions (cl : Closure) : M () :=
  vpWidth ← window_innerWidth;
  vpHeight ← window_innerHeight;
  rect ← getBoundingClientRect (cl_element cl);
  let elWidth := toFixed (width rect) 2 +:+ " px" in
  let elHeight := toFixed (height rect) 2 +:+ " px" in
  assign_innerHTML (cl_resultsBloc cl)
    (LF +:+ spaces 12 +:+ "Viewport => width: " +:+ Number_toString_int vpWidth
        +:+ "px | height: " +:+ Number_toString_int vpHeight +:+ "px" +:+ LF
        +:+ spaces 12 +:+ "<br>" +:+ LF
        +:+ spaces 12 +:+ cl_selector cl +:+ " => width: " +:+ elWidth
        +:+ " | height: " +:+ elHeight +:+ LF
        +:+ spaces 10).

(** Lines 13 to 80. *)
Definition showElementDimensions (options : option Options) : M () :=
  let selector := resolve_selector options in
  let color := resolve_color options in
  element ← document_querySelector selector;
  resultsBloc ← document_createElement "div";
  assign_className resultsBloc "sizing-results-bloc";;
  assign_style resultsBloc "position" "fixed";;
  assign_style resultsBloc "top" "10px";;
  assign_style resultsBloc "left" "50%";;
  assign_style resultsBloc "transform" "translateX(-50%)";;
  assign_style resultsBloc "zIndex" "9999";;
  assign_style resultsBloc "border" ("2px solid " +:+ color);;
  assign_style resultsBloc "color" color;;
  assign_style resultsBloc "fontWeight" "bold";;
  assign_style resultsBloc "backgroundColor" "#fff8dc";;
  assign_style resultsBloc "padding" "5px 10px";;
  assign_style resultsBloc "margin" "0";;
  assign_style resultsBloc "display" "inline-block";;
  assign_style resultsBloc "boxShadow" "0 2px 5px rgba(0,0,0,0.2)";;
  match element with
  | None =>
      assign_textContent resultsBloc
        ("Element not present for selector: " +:+ dquote +:+ selector +:+ dquote);;
      document_body_appendChild resultsBloc
  | Some element =>
      let updateDimensions_fn :=
        {| cl_element := element; cl_resultsBloc := resultsBloc;
           cl_selector := selector |} in
      document_body_appendChild resultsBloc;;
      updateDimensions updateDimensions_fn;;
      supported ← window_has_ResizeObserver;
      (if supported : bool then
         resizeObserver ← new_ResizeObserver updateDimensions_fn;
         ResizeObserver_observe resizeObserver element
       else mret ());;
      window_addEventListener "resize" updateDimensions_fn
  end.

(** ** Notifications

    What the browser does with the two bindings: on a viewport resize it
    runs the window's [resize] listeners in the order they were added; on
    a change of an element's size it runs the callback of every observer
    of the element. *)

Fixpoint run_callbacks (cbs : list Closure) : M () :=
  match cbs with
  | [] => mret ()
  | cb :: cbs => updateDimensions cb;; run_callbacks cbs
  end.

Definition resize_listeners (p : Page) : list Closure :=
  (filter (λ l, l.1 = "resize") (listeners p)).*2.

Definition viewport_resized (w h : Z) : M () := λ st,
  let st := {| page := with_viewport w h (page st); trace := trace st |} in
  run_callbacks (resize_listeners (page st)) st.

Definition observers_of (n : NodeId) (p : Page) : list Closure :=
  ro_callback <$> filter (λ o, n ∈ ro_targets o) (observers p).

Definition element_resized (n : NodeId) : M () := λ st,
  run_callbacks (observers_of n (page st)) st.

End Program.

(** ** Two decimal places

    What the specification calls "formatted to exactly two decimal
    places": for a number [x >= 0], the digits of the integer part of
    [x] rounded to hundredths, a point, and the two digits of the
    hundredths. *)

Definition digit (d : Z) : ascii := pretty_N_char (Z.to_N d).

Definition hundredths (x : Q) : Z := Qfloor (x * inject_Z 100 + (1 # 2))%Q.

Definition two_decimals (x : Q) : string :=
  let n := hundredths x in
  pretty (n / 100) +:+ "." +:+
  String (digit (n mod 100 / 10)) (String (digit (n mod 10)) "").

Definition sign (x : Q) : string := if Qlt_le_dec x 0%Q then "-" else "".

(** The shape alone: an optional minus sign, at least one digit, a
    point, two digits, and nothing else. *)
Fixpoint digits_point_two (seen : bool) (s : string) : bool :=
  match s with
  | String c rest =>
      if decide (c = "."%char) then
        seen && match rest with
                | String d1 (String d2 EmptyString) => is_digit d1 && is_digit d2
                | _ => false
                end
      else is_digit c && digits_point_two true rest
  | EmptyString => false
  end.

Definition has_two_decimals (s : string) : bool :=
  match s with
  | String c rest =>
      if decide (c = "-"%char) then digits_point_two false rest
      else digits_point_two false s
  | EmptyString => false
  end.

(** ** What a call leaves behind

    The style the assignments of lines 24 to 38 build, oldest assignment
    innermost, and the overlay element that carries it. *)

Definition overlay_style (color : string) : gmap string string :=
  <["boxShadow" := "0 2px 5px rgba(0,0,0,0.2)"]>
  (<["display" := "inline-block"]>
  (<["margin" := "0"]>
  (<["padding" := "5px 10px"]>
  (<["backgroundColor" := "#fff8dc"]>
  (<["fontWeight" := "bold"]>
  (<["color" := color]>
  (<["border" := "2px solid " +:+ color]>
  (<["zIndex" := "9999"]>
  (<["transform" := "translateX(-50%)"]>
  (<["left" := "50%"]>
  (<["top" := "10px"]>
  (<["position" := "fixed"]> ∅)))))))))))).

Definition overlay (color : string) (c : Content) : Element :=
  {| tagName := "div"; className := "sizing-results-bloc";
     style := overlay_style color; content := c |}.

(** The calls of lines 21 to 38 on the overlay [b]. *)
Definition overlay_calls (b : NodeId) (color : string) : list Call :=
  [ CallCreateElement "div" b;
    CallSetClassName b "sizing-results-bloc";
    CallSetStyle b "position" "fixed";
    CallSetStyle b "top" "10px";
    CallSetStyle b "left" "50%";
    CallSetStyle b "transform" "translateX(-50%)";
    CallSetStyle b "zIndex" "9999";
    CallSetStyle b "border" ("2px solid " +:+ color);
    CallSetStyle b "color" color;
    CallSetStyle b "fontWeight" "bold";
    CallSetStyle b "backgroundColor" "#fff8dc";
    CallSetStyle b "padding" "5px 10px";
    CallSetStyle b "margin" "0";
    CallSetStyle b "display" "inline-block";
    CallSetStyle b "boxShadow" "0 2px 5px rgba(0,0,0,0.2)" ].

(** The node [document.createElement] allocates on page [p]. *)
Definition new_node (p : Page) : NodeId := fresh (dom (nodes p)).

(** The message of line 42. *)
Definition not_present (selector : string) : string :=
  "Element not present for selector: " +:+ dquote +:+ selector +:+ dquote.

(** The two-line block of lines 59 to 63 for the given readings. *)
Definition two_lines (selector : string) (vpWidth vpHeight : Z) (elWidth elHeight : string)
    : string :=
  LF +:+ spaces 12 +:+ "Viewport => width: " +:+ Number_toString_int vpWidth
     +:+ "px | height: " +:+ Number_toString_int vpHeight +:+ "px" +:+ LF
     +:+ spaces 12 +:+ "<br>" +:+ LF
     +:+ spaces 12 +:+ selector +:+ " => width: " +:+ elWidth +:+ " px"
     +:+ " | height: " +:+ elHeight +:+ " px" +:+ LF
     +:+ spaces 10.

Section Outcome.
Context `{Host}.

(** What [updateDimensions] writes on page [p]. *)
Definition readout (cl : Closure) (p : Page) : string :=
  let rect := bounding_box p (cl_element cl) in
  two_lines (cl_selector cl) (innerWidth p) (innerHeight p)
    (toFixed (width rect) 2) (toFixed (height rect) 2).

Definition rendered (cl : Closure) (p : Page) : Page :=
  with_nodes (alter (set_content (InnerHTML (readout cl p))) (cl_resultsBloc cl)) p.

Definition render_calls (cl : Closure) (p : Page) : list Call :=
  [ CallInnerWidth; CallInnerHeight; CallGetBoundingClientRect (cl_element cl);
    CallSetInnerHTML (cl_resultsBloc cl) (readout cl p) ].

(** The page with the overlay [b], holding [c], as the body's last
    child. *)
Definition with_overlay (b : NodeId) (color : string) (c : Content) (p : Page) : Page :=
  with_tree (append_node b) (with_nodes (insert b (overlay color c)) p).

Definition observed (cl : Closure) (p : Page) : Page :=
  if has_ResizeObserver p
  then with_observers
         (λ os, os ++ [{| ro_callback := cl; ro_targets := [cl_element cl] |}]) p
  else p.

Definition observe_calls (cl : Closure) (p : Page) : list Call :=
  CallHasResizeObserver ::
  if has_ResizeObserver p
  then [CallNewResizeObserver cl; CallObserve (length (observers p)) (cl_element cl)]
  else [].

(** Everything of the page except what its elements hold. *)
Definition same_frame (p p' : Page) : Prop :=
  dom (nodes p') = dom (nodes p)
  ∧ document_order p' = document_order p
  ∧ body_children p' = body_children p
  ∧ innerWidth p' = innerWidth p
  ∧ innerHeight p' = innerHeight p
  ∧ has_ResizeObserver p' = has_ResizeObserver p
  ∧ observers p' = observers p
  ∧ listeners p' = listeners p.

(** The function object line 48 creates when the lookup found [e]. *)
Definition render_closure (options : option Options) (e : NodeId) (p : Page) : Closure :=
  {| cl_element := e; cl_resultsBloc := new_node p;
     cl_selector := resolve_selector options |}.

(** The browser after the call on the missing-element path (the
    specification's [ErrorDisplayed])... *)
Definition error_displayed (options : option Options) (st : Browser) : Browser :=
  let selector := resolve_selector options in
  let color := resolve_color options in
  let b := new_node (page st) in
  {| page := with_overlay b color (TextContent (not_present selector)) (page st);
     trace := trace st ++ CallQuerySelector selector :: overlay_calls b color
                ++ [CallSetTextContent b (not_present selector); CallAppendChild b] |}.

(** ... and on the found-element path ([Live]), when the lookup found
    [e]. *)
Definition live (options : option Options) (e : NodeId) (st : Browser) : Browser :=
  let selector := resolve_selector options in
  let color := resolve_color options in
  let b := new_node (page st) in
  let cl := render_closure options e (page st) in
  let p1 := with_overlay b color NoContent (page st) in
  let p2 := rendered cl p1 in
  {| page := with_listeners (λ ls, ls ++ [("resize", cl)]) (observed cl p2);
     trace := trace st ++ CallQuerySelector selector :: overlay_calls b color
                ++ [CallAppendChild b] ++ render_calls cl p1
                ++ observe_calls cl p2 ++ [CallAddEventListener "resize" cl] |}.

End Outcome.

(** ** A host for the examples

    Its selectors are the two kinds the function's docstring names, a
    (lower-case) tag name and a class; it rejects every other string, the
    empty one among them.  Its layout gives a connected element five
    sixths of the viewport's width and 200 px of height, both times
    [scale] (a [transform: scale(...)] on the page's root), and an
    element that is not connected an empty box. *)

Definition is_name_start (c : ascii) : bool :=
  let n := Ascii.nat_of_ascii c in ((97 <=? n) && (n <=? 122) || (n =? 95))%nat.

Definition is_name_char (c : ascii) : bool :=
  let n := Ascii.nat_of_ascii c in
  (is_name_start c || is_digit c || (n =? 45))%nat.

Fixpoint all_name_chars (s : string) : bool :=
  match s with
  | EmptyString => true
  | String c s => is_name_char c && all_name_chars s
  end.

Definition is_name (s : string) : bool :=
  match s with
  | EmptyString => false
  | String c s => is_name_start c && all_name_chars s
  end.

(** The class names of a [className]: its runs of characters other than
    the space. *)
Fixpoint class_names (cur : string) (s : string) : list string :=
  match s with
  | EmptyString => if decide (cur = "") then [] else [cur]
  | String c s =>
      if decide (c = " "%char) then
        (if decide (cur = "") then class_names "" s else cur :: class_names "" s)
      else class_names (cur +:+ String c "") s
  end.

Definition demo_parse_selector (s : string) : option (Page → NodeId → bool) :=
  match s with
  | EmptyString => None
  | String c rest =>
      if decide (c = "."%char) then
        if is_name rest then
          Some (λ p n, match nodes p !! n with
                       | Some e => bool_decide (rest ∈ class_names "" (className e))
                       | None => false
                       end)
        else None
      else if is_name s then
        Some (λ p n, match nodes p !! n with
                     | Some e => bool_decide (tagName e = s)
                     | None => false
                     end)
      else None
  end.

Definition demo_bounding_box (scale : Q) (p : Page) (n : NodeId) : DOMRect :=
  if decide (n ∈ document_order p)
  then {| width := inject_Z (innerWidth p) * (5 # 6) * scale;
          height := inject_Z 200 * scale |}
  else {| width := 0; height := 0 |}.

Definition scaled_host (scale : Q) : Host.
Proof.
  refine {| parse_selector := demo_parse_selector;
            bounding_box := demo_bounding_box scale;
            parse_selector_empty := eq_refl;
            matches_element := _ |}.
  intros s matches p n Hs Hm. unfold demo_parse_selector in Hs.
  destruct s as [|c rest]; [done|].
  repeat case_match; simplify_eq; by destruct (nodes p !! n).
Defined.

Definition demo_host : Host := scaled_host 1.

Definition element (tag class : string) : Element :=
  {| tagName := tag; className := class; style := ∅; content := NoContent |}.

(** The demonstration page of the repository when its script runs: the
    two containers and the script in the body, nothing registered yet,
    in a 1280 by 720 viewport. *)
Definition demo_page : Browser :=
  {| page :=
       {| nodes := list_to_map
            [(0%nat, element "html" ""); (1%nat, element "head" "");
             (2%nat, element "body" ""); (3%nat, element "div" "maincontent");
             (4%nat, element "div" "maincontent_alt"); (5%nat, element "script" "")];
          document_order := [0; 1; 2; 3; 4; 5]%nat;
          body_children := [3; 4; 5]%nat;
          innerWidth := 1280; innerHeight := 720;
          has_ResizeObserver := true;
          observers := []; listeners := [] |};
     trace := [] |}.

Definition demo_options (selector : string) : option Options :=
  Some {| opt_selector := Some selector; opt_color := None |}.

(** The demonstration page in a 1200 by 800 viewport. *)
Definition wide_page : Browser :=
  {| page := with_viewport 1200 800 (page demo_page); trace := [] |}.

(** The demonstration page after a call that finds the first container
    and a resize of the viewport to 1024 by 768. *)
Definition resized_page : Browser :=
  match viewport_resized (H := demo_host) 1024 768
          (live (H := demo_host) (demo_options ".maincontent") 3%nat demo_page) with
  | Normal _ st | Throw _ st => st
  end.

(** ** The page's copy of the function and the two startup handlers

    The demonstration page inlines the function (lines 141 to 208 of the
    source file, after the separator); its text is the file's, indented
    differently, which shows in the template literal of lines 187 to
    191. *)

(** The block of lines 187 to 191. *)
Definition two_lines_page (selector : string) (vpWidth vpHeight : Z)
    (elWidth elHeight : string) : string :=
  LF +:+ spaces 10 +:+ "Viewport => width: " +:+ Number_toString_int vpWidth
     +:+ "px | height: " +:+ Number_toString_int vpHeight +:+ "px" +:+ LF
     +:+ spaces 10 +:+ "<br>" +:+ LF
     +:+ spaces 10 +:+ selector +:+ " => width: " +:+ elWidth +:+ " px"
     +:+ " | height: " +:+ elHeight +:+ " px" +:+ LF
     +:+ spaces 8.

Section Copies.
Context `{Host}.

(** Lines 176 to 192. *)
Definition updateDimensions_page (cl : Closure) : M () :=
  vpWidth ← window_innerWidth;
  vpHeight ← window_innerHeight;
  rect ← getBoundingClientRect (cl_element cl);
  let elWidth := toFixed (width rect) 2 +:+ " px" in
  let elHeight := toFixed (height rect) 2 +:+ " px" in
  assign_innerHTML (cl_resultsBloc cl)
    (LF +:+ spaces 10 +:+ "Viewport => width: " +:+ Number_toString_int vpWidth
        +:+ "px | height: " +:+ Number_toString_int vpHeight +:+ "px" +:+ LF
        +:+ spaces 10 +:+ "<br>" +:+ LF
        +:+ spaces 10 +:+ cl_selector cl +:+ " => width: " +:+ elWidth
        +:+ " | height: " +:+ elHeight +:+ LF
        +:+ spaces 8).

(** What the page's [updateDimensions] writes on page [p], the page it
    leaves and the calls it makes. *)
Definition readout_page (cl : Closure) (p : Page) : string :=
  let rect := bounding_box p (cl_element cl) in
  two_lines_page (cl_selector cl) (innerWidth p) (innerHeight p)
    (toFixed (width rect) 2) (toFixed (height rect) 2).

Definition rendered_page (cl : Closure) (p : Page) : Page :=
  with_nodes (alter (set_content (InnerHTML (readout_page cl p))) (cl_resultsBloc cl)) p.

Definition render_calls_page (cl : Closure) (p : Page) : list Call :=
  [ CallInnerWidth; CallInnerHeight; CallGetBoundingClientRect (cl_element cl);
    CallSetInnerHTML (cl_resultsBloc cl) (readout_page cl p) ].

(** Lines 141 to 208. *)
Definition showElementDimensions_page (options : option Options) : M () :=
  let selector := resolve_selector options in
  let color := resolve_color options in
  element ← document_querySelector selector;
  resultsBloc ← document_createElement "div";
  assign_className resultsBloc "sizing-results-bloc";;
  assign_style resultsBloc "position" "fixed";;
  assign_style resultsBloc "top" "10px";;
  assign_style resultsBloc "left" "50%";;
  assign_style resultsBloc "transform" "translateX(-50%)";;
  assign_style resultsBloc "zIndex" "9999";;
  assign_style resultsBloc "border" ("2px solid " +:+ color);;
  assign_style resultsBloc "color" color;;
  assign_style resultsBloc "fontWeight" "bold";;
  assign_style resultsBloc "backgroundColor" "#fff8dc";;
  assign_style resultsBloc "padding" "5px 10px";;
  assign_style resultsBloc "margin" "0";;
  assign_style resultsBloc "display" "inline-block";;
  assign_style resultsBloc "boxShadow" "0 2px 5px rgba(0,0,0,0.2)";;
  match element with
  | None =>
      assign_textContent resultsBloc
        ("Element not present for selector: " +:+ dquote +:+ selector +:+ dquote);;
      document_body_appendChild resultsBloc
  | Some element =>
      let updateDimensions_fn :=
        {| cl_element := element; cl_resultsBloc := resultsBloc;
           cl_selector := selector |} in
      document_body_appendChild resultsBloc;;
      updateDimensions_page updateDimensions_fn;;
      supported ← window_has_ResizeObserver;
      (if supported : bool then
         resizeObserver ← new_ResizeObserver updateDimensions_fn;
         ResizeObserver_observe resizeObserver element
       else mret ());;
      window_addEventListener "resize" updateDimensions_fn
  end.

(** Lines 86 to 99: what the file's script runs once the document is
    parsed. *)
Definition on_DOMContentLoaded : M () :=
  showElementDimensions (Some {| opt_selector := Some "main"; opt_color := None |}).

(** Lines 214 to 227: what the page's script runs once the document is
    parsed. *)
Definition on_DOMContentLoaded_page : M () :=
  showElementDimensions_page
    (Some {| opt_selector := Some ".maincontent"; opt_color := Some "green" |}).

(** The browser after a call of the page's copy that found [e].  The
    registries record a function object by what it captured; the one
    registered here is the copy's own [updateDimensions]. *)
Definition live_page (options : option Options) (e : NodeId) (st : Browser) : Browser :=
  let selector := resolve_selector options in
  let color := resolve_color options in
  let b := new_node (page st) in
  let cl := render_closure options e (page st) in
  let p1 := with_overlay b color NoContent (page st) in
  let p2 := rendered_page cl p1 in
  {| page := with_listeners (λ ls, ls ++ [("resize", cl)]) (observed cl p2);
     trace := trace st ++ CallQuerySelector selector :: overlay_calls b color
                ++ [CallAppendChild b] ++ render_calls_page cl p1
                ++ observe_calls cl p2 ++ [CallAddEventListener "resize" cl] |}.

(** ** What happens to a page over time

    The function is called, the viewport is resized, an element is
    resized.  An exception of a call reaches the script that made the
    call; the page goes on from where the call left it. *)

Inductive Event :=
| Called (options : option Options)
| ViewportResized (w h : Z)
| ElementResized (n : NodeId).

Definition state_after {A} (c : Completion A) : Browser :=
  match c with Normal _ st | Throw _ st => st end.

Definition handle (ev : Event) : M () :=
  match ev with
  | Called options => showElementDimensions options
  | ViewportResized w h => viewport_resized w h
  | ElementResized n => element_resized n
  end.

Fixpoint run (evs : list Event) (st : Browser) : Browser :=
  match evs with
  | [] => st
  | ev :: evs => run evs (state_after (handle ev st))
  end.

End Copies.

(** The function objects a page holds, as listeners and as callbacks of
    observers, and the overlays they write. *)
Definition closures (p : Page) : list Closure :=
  (listeners p).*2 ++ (ro_callback <$> observers p).

Definition bound (p : Page) : list NodeId := cl_resultsBloc <$> closures p.

(** What holds of a page that only the function has put listeners and
    observers on: the tree is made of element objects; a function object
    captures an element object and an overlay that is a child of the
    body and not that element; no two listeners write the same overlay,
    and no two observers do; and an observer watches the element its
    callback measures, that callback being a [resize] listener too. *)
Definition well_formed (p : Page) : Prop :=
  Forall (λ n, n ∈ dom (nodes p)) (document_order p)
  ∧ Forall (λ n, n ∈ document_order p) (body_children p)
  ∧ Forall (λ cl, cl_element cl ∈ dom (nodes p)
                  ∧ cl_resultsBloc cl ∈ body_children p
                  ∧ cl_element cl ≠ cl_resultsBloc cl) (closures p)
  ∧ NoDup (cl_resultsBloc <$> (listeners p).*2)
  ∧ NoDup (cl_resultsBloc <$> (ro_callback <$> observers p))
  ∧ Forall (λ o, ("resize", ro_callback o) ∈ listeners p
                 ∧ ro_targets o = [cl_element (ro_callback o)]) (observers p).

#[global] Instance Closure_eq_dec : EqDecision Closure.
Proof. solve_decision. Defined.

#[global] Instance well_formed_dec (p : Page) : Decision (well_formed p).
Proof. unfold well_formed. apply _. Defined.

(** The demonstration page after a call that finds the first
    container. *)
Definition watched_page : Browser :=
  live (H := demo_host) (demo_options ".maincontent") 3%nat demo_page.

(** A session on the demonstration page: a call that finds the first
    container, a resize of the viewport, a resize of that container, a
    call that finds nothing, and another resize of the viewport. *)
Definition demo_session : list Event :=
  [ Called (demo_options ".maincontent"); ViewportResized 1024 768;
    ElementResized 3%nat; Called (demo_options "main"); ViewportResized 800 600 ].

(** * Properties *)

(** ** Numbers *)

Example toFixed_int : toFixed (inject_Z 1280) 2 = "1280.00".
Proof. vm_compute. reflexivity. Qed.
Example toFixed_frac : toFixed (1237 # 8)%Q 2 = "154.63".
Proof. vm_compute. reflexivity. Qed.
Example toFixed_small : toFixed (1 # 16)%Q 2 = "0.06".
Proof. vm_compute. reflexivity. Qed.
Example toFixed_zero : toFixed 0%Q 2 = "0.00".
Proof. vm_compute. reflexivity. Qed.
Example toFixed_neg : toFixed (- 1 # 1024)%Q 2 = "-0.00".
Proof. vm_compute. reflexivity. Qed.
Example toFixed_1e21 : toFixed (inject_Z (10 ^ 21)) 2 = "1e+21".
Proof. vm_compute. reflexivity. Qed.
Example toFixed_2p70 : toFixed (inject_Z (2 ^ 70)) 2 = "1.1805916207174113e+21".
Proof. vm_compute. reflexivity. Qed.
Example toFixed_1e23 : toFixed (inject_Z 99999999999999991611392) 2 = "1e+23".
Proof. vm_compute. reflexivity. Qed.


(** ** Strings and digits *)

Lemma append_cons (c : ascii) (a b : string) : String c a +:+ b = String c (a +:+ b).
Proof. reflexivity. Qed.

Lemma length_append (a b : string) :
  String.length (a +:+ b) = (String.length a + String.length b)%nat.
Proof.
  induction a as [|c a IH]; [done|].
  rewrite append_cons. simpl. by rewrite IH.
Qed.

Lemma substring_all (b : string) : substring 0 (String.length b) b = b.
Proof. induction b as [|c b IH]; simpl; [done | by rewrite IH]. Qed.

Lemma substring_prefix (a b : string) :
  substring 0 (String.length a) (a +:+ b) = a.
Proof.
  induction a as [|c a IH]; [by destruct b|].
  rewrite append_cons. simpl. by rewrite IH.
Qed.

Lemma substring_suffix (a b : string) :
  substring (String.length a) (String.length b) (a +:+ b) = b.
Proof.
  induction a as [|c a IH]; [apply substring_all|].
  by rewrite append_cons.
Qed.

Lemma append_assoc (a b c : string) : (a +:+ b) +:+ c = a +:+ (b +:+ c).
Proof.
  induction a as [|x a IH]; [done|]. rewrite !append_cons. by rewrite IH.
Qed.

Lemma all_digits_append (a b : string) :
  all_digits (a +:+ b) = all_digits a && all_digits b.
Proof.
  induction a as [|c a IH]; [done|].
  rewrite append_cons. simpl. by rewrite IH, andb_assoc.
Qed.

Lemma is_digit_pretty_N_char (x : N) : is_digit (pretty_N_char x) = true.
Proof. unfold pretty_N_char. by repeat case_match. Qed.

(** The digits of [x] are the digits of [x / 10] followed by the last
    digit. *)
Lemma pretty_N_go_append (x : N) (s : string) :
  pretty_N_go x s = pretty_N_go x "" +:+ s.
Proof.
  revert s. induction (N.lt_wf_0 x) as [x _ IH]; intros s.
  destruct (decide (0 < x)%N) as [Hx|Hx].
  - assert (x `div` 10 < x)%N as Hlt by (by apply N.div_lt).
    rewrite !(pretty_N_go_step x) by done.
    rewrite (IH _ Hlt (String _ s)), (IH _ Hlt (String _ "")).
    by rewrite append_assoc.
  - assert (x = 0%N) as -> by lia. by rewrite !pretty_N_go_0.
Qed.

Lemma pretty_N_step (x : N) :
  (10 ≤ x)%N →
  pretty x = pretty (x `div` 10)%N +:+ String (pretty_N_char (x `mod` 10)) "".
Proof.
  intros Hx. unfold pretty, pretty_N.
  assert (0 < x `div` 10)%N by (apply N.div_str_pos; lia).
  rewrite !decide_False by lia.
  rewrite pretty_N_go_step by lia. apply pretty_N_go_append.
Qed.

Lemma pretty_N_small (x : N) :
  (x < 10)%N → pretty x = String (pretty_N_char x) "".
Proof.
  intros Hx. unfold pretty, pretty_N. case_decide as H0; [by subst|].
  rewrite pretty_N_go_step by lia.
  rewrite N.div_small, N.mod_small by done. apply pretty_N_go_0.
Qed.

Lemma length_pretty_N_pos (x : N) : (0 < String.length (pretty x))%nat.
Proof.
  destruct (decide (x < 10)%N) as [Hx|Hx].
  - rewrite pretty_N_small by done. simpl. lia.
  - rewrite pretty_N_step, length_append by lia. simpl. lia.
Qed.

Lemma all_digits_pretty_N (x : N) : all_digits (pretty x) = true.
Proof.
  induction (N.lt_wf_0 x) as [x _ IH].
  destruct (decide (x < 10)%N) as [Hx|Hx].
  - rewrite pretty_N_small by done. simpl. by rewrite is_digit_pretty_N_char.
  - rewrite pretty_N_step, all_digits_append by lia.
    rewrite IH by (apply N.div_lt; lia). simpl.
    by rewrite is_digit_pretty_N_char.
Qed.

Lemma pretty_Z_nonneg (n : Z) : 0 ≤ n → pretty n = pretty (Z.to_N n).
Proof. intros Hn. by destruct n; [| |lia]. Qed.

Lemma pretty_N_two_digits (x : N) :
  (100 ≤ x)%N →
  pretty x = pretty (x `div` 100)%N +:+
    String (pretty_N_char ((x `div` 10) `mod` 10)) (String (pretty_N_char (x `mod` 10)) "").
Proof.
  intros Hx. rewrite (pretty_N_step x) by lia.
  assert (10 ≤ x `div` 10)%N by (apply N.div_le_lower_bound; lia).
  rewrite (pretty_N_step (x `div` 10)) by done.
  rewrite N.Div0.div_div. change (10 * 10)%N with 100%N.
  by rewrite append_assoc.
Qed.

(** Steps 8.b to 8.d of Number.prototype.toFixed for two fraction
    digits, on the digits of any integer [n >= 0]. *)
Lemma point_before_last_two (n : Z) :
  0 ≤ n →
  let m := if n =? 0 then "0" else pretty n in
  let k := String.length m in
  let m' := if (k <=? 2)%nat then (zeros (2 + 1 - k) +:+ m) else m in
  let k' := String.length m' in
  substring 0 (k' - 2) m' +:+ "." +:+ substring (k' - 2) 2 m'
  = pretty (n / 100) +:+ "." +:+
    String (digit (n mod 100 / 10)) (String (digit (n mod 10)) "").
Proof.
  intros Hn. unfold digit.
  destruct (decide (n = 0)) as [->|Hn0]; [reflexivity|].
  rewrite (proj2 (Z.eqb_neq n 0)) by done.
  rewrite (pretty_Z_nonneg n), (pretty_Z_nonneg (n / 100)) by (try apply Z.div_pos; lia).
  assert (∃ x, n = Z.of_N x) as [x ->] by (exists (Z.to_N n); lia).
  assert (0 < x)%N by lia.
  change 100 with (Z.of_N 100). change 10 with (Z.of_N 10).
  rewrite <- !N2Z.inj_mod, <- !N2Z.inj_div, !N2Z.id.
  replace ((x `mod` 100) `div` 10)%N with ((x `div` 10) `mod` 10)%N
    by (zify; Z.to_euclidean_division_equations; lia).
  destruct (decide (x < 10)%N) as [H1|H1];
    [|destruct (decide (x < 100)%N) as [H2|H2]].
  - rewrite (pretty_N_small x) by done.
    rewrite (N.div_small x 100), (N.div_small x 10), (N.mod_small x 10) by lia.
    reflexivity.
  - rewrite (pretty_N_step x), (pretty_N_small (x `div` 10)) by
      (try apply N.Div0.div_lt_upper_bound; lia).
    rewrite (N.div_small x 100), (N.mod_small (x `div` 10)) by
      (try apply N.Div0.div_lt_upper_bound; lia).
    reflexivity.
  - rewrite (pretty_N_two_digits x) by lia.
    set (a := pretty (x `div` 100)%N).
    set (b := String _ (String _ "")).
    assert (0 < String.length a)%nat by apply length_pretty_N_pos.
    cbv zeta. rewrite length_append. change (String.length b) with 2%nat.
    replace (String.length a + 2 <=? 2)%nat with false
      by (symmetry; apply Nat.leb_gt; lia).
    rewrite length_append. change (String.length b) with 2%nat.
    replace (String.length a + 2 - 2)%nat with (String.length a) by lia.
    rewrite substring_prefix.
    change 2%nat with (String.length b) at 1. by rewrite substring_suffix.
Qed.

Lemma hundredths_nonneg (x : Q) : (0 <= x)%Q → 0 ≤ hundredths x.
Proof.
  intros Hx. unfold hundredths.
  change 0 with (Qfloor 0). apply Qfloor_resp_le.
  apply (Qle_trans _ (0 * inject_Z 100 + (1 # 2))); [done|].
  apply Qplus_le_l, Qmult_le_compat_r; done.
Qed.

(** Below 10^21 in magnitude, [toFixed(2)] is the two-decimal
    rendering, after the sign. *)
Lemma toFixed_two_decimals (x : Q) :
  (Qabs x < inject_Z (10 ^ 21))%Q →
  toFixed x 2 = sign x +:+ two_decimals (Qabs x).
Proof.
  intros Hx. unfold toFixed, sign, two_decimals.
  destruct (Qle_bool (inject_Z (10 ^ 21)) (Qabs x)) eqn:Hle.
  { apply Qle_bool_iff in Hle. by apply Qle_not_lt in Hle. }
  f_equal. apply (point_before_last_two (hundredths (Qabs x))).
  apply hundredths_nonneg, Qabs_nonneg.
Qed.

Lemma digits_point_two_digits (seen : bool) (a : string) (d1 d2 : ascii) :
  all_digits a = true → (seen = true ∨ a ≠ "") →
  is_digit d1 = true → is_digit d2 = true →
  digits_point_two seen (a +:+ "." +:+ String d1 (String d2 "")) = true.
Proof.
  intros Ha Hseen Hd1 Hd2. revert seen Hseen.
  induction a as [|c a IH]; intros seen Hseen.
  - destruct Hseen as [->|?]; [|done]. simpl. by rewrite Hd1, Hd2.
  - rewrite append_cons. simpl in *. apply andb_prop in Ha as [Hc Ha].
    rewrite decide_False by (intros ->; done).
    rewrite Hc. simpl. apply IH; auto.
Qed.

Lemma has_two_decimals_two_decimals (x : Q) :
  (0 <= x)%Q → has_two_decimals (two_decimals x) = true
              ∧ has_two_decimals ("-" +:+ two_decimals x) = true.
Proof.
  intros Hx. unfold two_decimals.
  assert (0 ≤ hundredths x `div` 100)
    by (apply Z.div_pos; [by apply hundredths_nonneg | lia]).
  rewrite pretty_Z_nonneg by done.
  set (a := pretty (Z.to_N _)).
  assert (all_digits a = true) as Ha by apply all_digits_pretty_N.
  assert (a ≠ "") as Hne.
  { intros Heq. pose proof (length_pretty_N_pos (Z.to_N (hundredths x `div` 100))) as Hl.
    fold a in Hl. rewrite Heq in Hl. simpl in Hl. lia. }
  split.
  - clearbody a. destruct a as [|c a']; [done|].
    unfold has_two_decimals. rewrite append_cons.
    simpl in Ha. apply andb_prop in Ha as [Hc Ha'].
    rewrite decide_False by (intros ->; done).
    rewrite <- append_cons.
    apply digits_point_two_digits; unfold digit;
      auto using is_digit_pretty_N_char.
    simpl. by rewrite Hc, Ha'.
  - change (has_two_decimals ("-" +:+ ?s)) with (digits_point_two false s).
    apply digits_point_two_digits; unfold digit;
      auto using is_digit_pretty_N_char.
Qed.

Lemma has_two_decimals_toFixed (x : Q) :
  (Qabs x < inject_Z (10 ^ 21))%Q → has_two_decimals (toFixed x 2) = true.
Proof.
  intros Hx. rewrite toFixed_two_decimals by done.
  destruct (has_two_decimals_two_decimals (Qabs x) (Qabs_nonneg x)) as [H1 H2].
  unfold sign. by destruct (Qlt_le_dec x 0).
Qed.

(** ** The function, path by path *)

Section Paths.
Context `{Host}.

(** A run of [updateDimensions] never throws: three reads and one
    assignment. *)
Lemma updateDimensions_run (cl : Closure) (st : Browser) :
  updateDimensions cl st
  = Normal () {| page := rendered cl (page st);
                 trace := trace st ++ render_calls cl (page st) |}.
Proof.
  unfold updateDimensions, window_innerWidth, window_innerHeight,
    getBoundingClientRect, assign_innerHTML, call, mbind, M_bind.
  simpl. unfold rendered, readout, two_lines, render_calls.
  rewrite <- !app_assoc. simpl. rewrite !append_assoc. reflexivity.
Qed.

(** The lookup throws: nothing else happens. *)
Lemma showElementDimensions_rejected (options : option Options) (st : Browser) :
  parse_selector (resolve_selector options) = None →
  showElementDimensions options st
  = Throw (SyntaxError (resolve_selector options))
      {| page := page st;
         trace := trace st ++ [CallQuerySelector (resolve_selector options)] |}.
Proof.
  intros Hparse.
  unfold showElementDimensions, document_querySelector, mbind, M_bind.
  by rewrite Hparse.
Qed.

(** Lines 21 to 38 leave the overlay in the store, fully styled. *)
Lemma overlay_built (b : NodeId) (color : string) (m : gmap nat Element) :
    (alter (set_style "boxShadow" "0 2px 5px rgba(0,0,0,0.2)") b
    (alter (set_style "display" "inline-block") b
    (alter (set_style "margin" "0") b
    (alter (set_style "padding" "5px 10px") b
    (alter (set_style "backgroundColor" "#fff8dc") b
    (alter (set_style "fontWeight" "bold") b
    (alter (set_style "color" color) b
    (alter (set_style "border" ("2px solid " +:+ color)) b
    (alter (set_style "zIndex" "9999") b
    (alter (set_style "transform" "translateX(-50%)") b
    (alter (set_style "left" "50%") b
    (alter (set_style "top" "10px") b
    (alter (set_style "position" "fixed") b
    (alter (set_className "sizing-results-bloc") b
    (<[b := {| tagName := "div"; className := ""; style := ∅; content := NoContent |}]> m)
    ))))))))))))))
  = <[b := overlay color NoContent]> m.
Proof. rewrite !alter_insert_eq. reflexivity. Qed.

Lemma with_nodes_with_nodes (f g : gmap nat Element → gmap nat Element) (p : Page) :
  with_nodes f (with_nodes g p) = with_nodes (λ m, f (g m)) p.
Proof. reflexivity. Qed.

(** The missing-element path, lines 41 to 45. *)
Lemma showElementDimensions_missing (options : option Options) (st : Browser)
    (matches : Page → NodeId → bool) :
  parse_selector (resolve_selector options) = Some matches →
  List.find (matches (page st)) (document_order (page st)) = None →
  let selector := resolve_selector options in
  let color := resolve_color options in
  let b := new_node (page st) in
  showElementDimensions options st
  = Normal ()
      {| page := with_overlay b color (TextContent (not_present selector)) (page st);
         trace := trace st ++ CallQuerySelector selector :: overlay_calls b color
                    ++ [CallSetTextContent b (not_present selector); CallAppendChild b] |}.
Proof.
  intros Hparse Hfind selector color b.
  unfold showElementDimensions, document_querySelector.
  unfold mbind at 1. unfold M_bind at 1. rewrite Hparse.
  unfold call at 1. rewrite Hfind.
  unfold document_createElement, assign_className, assign_style, assign_textContent,
    document_body_appendChild, call, mbind, M_bind.
  cbn [page trace]. change (id (page st)) with (page st).
  fold b selector color (not_present selector). f_equal. f_equal.
  - unfold with_overlay. f_equal. rewrite !with_nodes_with_nodes.
    unfold with_nodes. f_equal. cbv beta.
    by rewrite overlay_built, alter_insert_eq.
  - rewrite <- !app_assoc. reflexivity.
Qed.

(** [observe] on the observer just created. *)
Lemma alter_last {A} (f : A → A) (l : list A) (x : A) :
  alter f (length l) (l ++ [x]) = l ++ [f x].
Proof.
  rewrite <- (Nat.add_0_r (length l)). by rewrite alter_app_r.
Qed.

(** The found-element path, lines 47 to 79. *)
Lemma showElementDimensions_found (options : option Options) (st : Browser)
    (matches : Page → NodeId → bool) (e : NodeId) :
  parse_selector (resolve_selector options) = Some matches →
  List.find (matches (page st)) (document_order (page st)) = Some e →
  let selector := resolve_selector options in
  let color := resolve_color options in
  let b := new_node (page st) in
  let cl := {| cl_element := e; cl_resultsBloc := b; cl_selector := selector |} in
  let p1 := with_overlay b color NoContent (page st) in
  let p2 := rendered cl p1 in
  showElementDimensions options st
  = Normal ()
      {| page := with_listeners (λ ls, ls ++ [("resize", cl)]) (observed cl p2);
         trace := trace st ++ CallQuerySelector selector :: overlay_calls b color
                    ++ [CallAppendChild b] ++ render_calls cl p1
                    ++ observe_calls cl p2 ++ [CallAddEventListener "resize" cl] |}.
Proof.
  intros Hparse Hfind selector color b cl p1 p2.
  unfold showElementDimensions, document_querySelector.
  unfold mbind at 1. unfold M_bind at 1. rewrite Hparse.
  unfold call at 1. rewrite Hfind.
  unfold document_createElement, assign_className, assign_style,
    document_body_appendChild.
  unfold mbind, M_bind, call at 1 2 3 4 5 6 7 8 9 10 11 12 13 14 15 16.
  cbn [page trace]. change (id (page st)) with (page st).
  change (fresh (dom (nodes (page st)))) with b. fold selector color cl.
  rewrite updateDimensions_run. cbn [page trace].
  rewrite !with_nodes_with_nodes.
  match goal with |- context [rendered cl ?p] => replace p with p1 end.
  2: { unfold p1, with_overlay, with_nodes. do 2 f_equal.
       symmetry. apply overlay_built. }
  fold p2. unfold window_has_ResizeObserver, call at 1. cbn [page trace].
  unfold observed, observe_calls.
  destruct (has_ResizeObserver p2).
  - unfold new_ResizeObserver, ResizeObserver_observe, window_addEventListener, call.
    cbn [page trace]. f_equal. f_equal.
    + unfold with_listeners, with_observers. cbn [observers].
      rewrite alter_last. reflexivity.
    + rewrite <- !app_assoc. reflexivity.
  - unfold window_addEventListener, call, mret, M_ret.
    cbn [page trace]. f_equal. f_equal.
    rewrite <- !app_assoc. reflexivity.
Qed.

(** The function's three outcomes. *)
Lemma showElementDimensions_outcome (options : option Options) (st : Browser) :
  showElementDimensions options st
  = match lookup (resolve_selector options) (page st) with
    | Rejected =>
        Throw (SyntaxError (resolve_selector options))
          {| page := page st;
             trace := trace st ++ [CallQuerySelector (resolve_selector options)] |}
    | NoMatch => Normal () (error_displayed options st)
    | Match e => Normal () (live options e st)
    end.
Proof.
  unfold lookup.
  destruct (parse_selector (resolve_selector options)) as [matches|] eqn:Hparse;
    [|by apply showElementDimensions_rejected].
  destruct (List.find _ _) as [e|] eqn:Hfind.
  - by apply (showElementDimensions_found _ _ matches e).
  - by apply (showElementDimensions_missing _ _ matches).
Qed.

(** *** What the pages of the two paths hold *)

Lemma nodes_observed (cl : Closure) (p : Page) : nodes (observed cl p) = nodes p.
Proof. unfold observed. by destruct (has_ResizeObserver p). Qed.

Lemma nodes_rendered_overlay (cl : Closure) (color : string) (p : Page) :
  nodes (rendered cl (with_overlay (cl_resultsBloc cl) color NoContent p))
  = <[cl_resultsBloc cl :=
        overlay color
          (InnerHTML (readout cl (with_overlay (cl_resultsBloc cl) color NoContent p)))]>
      (nodes p).
Proof.
  unfold rendered. cbn [nodes with_nodes with_overlay with_tree].
  by rewrite alter_insert_eq.
Qed.


Lemma nodes_error_displayed (options : option Options) (st : Browser) :
  nodes (page (error_displayed options st))
  = <[new_node (page st) :=
        overlay (resolve_color options)
          (TextContent (not_present (resolve_selector options)))]> (nodes (page st)).
Proof. reflexivity. Qed.

Lemma nodes_live (options : option Options) (e : NodeId) (st : Browser) :
  let cl := render_closure options e (page st) in
  let p1 := with_overlay (new_node (page st)) (resolve_color options) NoContent (page st) in
  nodes (page (live options e st))
  = <[new_node (page st) :=
        overlay (resolve_color options) (InnerHTML (readout cl p1))]> (nodes (page st)).
Proof.
  intros cl p1. unfold live. cbn [page with_listeners nodes].
  rewrite nodes_observed. apply (nodes_rendered_overlay cl).
Qed.

Lemma observers_live (options : option Options) (e : NodeId) (st : Browser) :
  observers (page (live options e st))
  = observers (page st)
    ++ if has_ResizeObserver (page st)
       then [{| ro_callback := render_closure options e (page st); ro_targets := [e] |}]
       else [].
Proof.
  unfold live, observed. cbn [page with_listeners observers].
  change (has_ResizeObserver (rendered _ _)) with (has_ResizeObserver (page st)).
  destruct (has_ResizeObserver (page st)); [done|].
  by rewrite app_nil_r.
Qed.

Lemma listeners_live (options : option Options) (e : NodeId) (st : Browser) :
  listeners (page (live options e st))
  = listeners (page st) ++ [("resize", render_closure options e (page st))].
Proof.
  unfold live, observed. cbn [page with_listeners listeners].
  by destruct (has_ResizeObserver _).
Qed.

Lemma tree_live (options : option Options) (e : NodeId) (st : Browser) :
  body_children (page (live options e st))
  = append_node (new_node (page st)) (body_children (page st))
  ∧ document_order (page (live options e st))
    = append_node (new_node (page st)) (document_order (page st)).
Proof.
  unfold live, observed. cbn [page with_listeners body_children document_order].
  by destruct (has_ResizeObserver _).
Qed.

(** *** What a render changes *)

Lemma same_frame_refl (p : Page) : same_frame p p.
Proof. by repeat split. Qed.

Lemma same_frame_trans (p1 p2 p3 : Page) :
  same_frame p1 p2 → same_frame p2 p3 → same_frame p1 p3.
Proof.
  unfold same_frame. intros (?&?&?&?&?&?&?&?) (?&?&?&?&?&?&?&?).
  repeat split; congruence.
Qed.

Lemma rendered_frame (cl : Closure) (p : Page) : same_frame p (rendered cl p).
Proof.
  unfold same_frame, rendered. cbn. repeat split; try done.
  apply dom_alter_L.
Qed.

Lemma rendered_other (cl : Closure) (p : Page) (n : NodeId) :
  n ≠ cl_resultsBloc cl → nodes (rendered cl p) !! n = nodes p !! n.
Proof. intros Hn. unfold rendered. cbn. by rewrite lookup_alter_ne. Qed.

Lemma rendered_overlay (cl : Closure) (p : Page) :
  nodes (rendered cl p) !! cl_resultsBloc cl
  = set_content (InnerHTML (readout cl p)) <$> nodes p !! cl_resultsBloc cl.
Proof. unfold rendered. cbn. by rewrite lookup_alter_eq. Qed.

Lemma run_callbacks_app (cbs1 cbs2 : list Closure) (st : Browser) :
  run_callbacks (cbs1 ++ cbs2) st
  = match run_callbacks cbs1 st with
    | Normal _ st' => run_callbacks cbs2 st'
    | Throw e st' => Throw e st'
    end.
Proof.
  revert st. induction cbs1 as [|cb cbs1 IH]; intros st; [done|].
  cbn [app run_callbacks]. unfold mbind, M_bind.
  rewrite updateDimensions_run. apply IH.
Qed.

(** Running callbacks never throws and changes nothing but what the
    overlays of these callbacks hold. *)
Lemma run_callbacks_frame (cbs : list Closure) (st : Browser) :
  ∃ st', run_callbacks cbs st = Normal () st'
    ∧ same_frame (page st) (page st')
    ∧ ∀ n, n ∉ cl_resultsBloc <$> cbs → nodes (page st') !! n = nodes (page st) !! n.
Proof.
  revert st. induction cbs as [|cb cbs IH]; intros st.
  - exists st. split; [done|]. split; [apply same_frame_refl | done].
  - cbn [run_callbacks]. unfold mbind, M_bind. rewrite updateDimensions_run.
    destruct (IH {| page := rendered cb (page st);
                    trace := trace st ++ render_calls cb (page st) |})
      as (st' & Hrun & Hframe & Hother).
    exists st'. split; [done|]. cbn [page] in *. split.
    + eapply same_frame_trans; [apply rendered_frame | done].
    + intros n Hn. rewrite fmap_cons in Hn.
      apply not_elem_of_cons in Hn as [Hn1 Hn2].
      rewrite Hother by done. by apply rendered_other.
Qed.

(** The last callback's overlay holds that callback's readout. *)
Lemma run_callbacks_last (cbs : list Closure) (cl : Closure) (st : Browser) :
  is_Some (nodes (page st) !! cl_resultsBloc cl) →
  ∃ st' p, run_callbacks (cbs ++ [cl]) st = Normal () st'
    ∧ same_frame (page st) p
    ∧ same_frame (page st) (page st')
    ∧ content <$> nodes (page st') !! cl_resultsBloc cl
      = Some (InnerHTML (readout cl p)).
Proof.
  intros Hb. rewrite run_callbacks_app.
  destruct (run_callbacks_frame cbs st) as (st1 & -> & Hframe & _).
  assert (is_Some (nodes (page st1) !! cl_resultsBloc cl)) as [o Ho].
  { apply elem_of_dom. destruct Hframe as [-> _]. by apply elem_of_dom. }
  exists {| page := rendered cl (page st1);
            trace := trace st1 ++ render_calls cl (page st1) |}, (page st1).
  cbn [run_callbacks]. unfold mbind, M_bind. rewrite updateDimensions_run.
  split; [done|]. split; [done|]. cbn [page]. split.
  - eapply same_frame_trans; [done | apply rendered_frame].
  - by rewrite rendered_overlay, Ho.
Qed.

Lemma resize_listeners_live (options : option Options) (e : NodeId) (st : Browser)
    (w h : Z) :
  resize_listeners (with_viewport w h (page (live options e st)))
  = resize_listeners (page st) ++ [render_closure options e (page st)].
Proof.
  unfold resize_listeners. cbn [listeners with_viewport].
  rewrite listeners_live, filter_app, fmap_app. f_equal.
Qed.

Lemma observers_of_live (options : option Options) (e : NodeId) (st : Browser) :
  has_ResizeObserver (page st) = true →
  observers_of e (page (live options e st))
  = observers_of e (page st) ++ [render_closure options e (page st)].
Proof.
  intros Hro. unfold observers_of.
  rewrite observers_live, Hro, filter_app, fmap_app. f_equal.
  rewrite filter_cons_True; [done|]. cbn. apply list_elem_of_singleton. done.
Qed.

(** Notifications never throw and neither add nor remove an element
    object. *)
Lemma viewport_resized_keeps_elements (w h : Z) (st : Browser) :
  ∃ st', viewport_resized w h st = Normal () st'
    ∧ dom (nodes (page st')) = dom (nodes (page st)).
Proof.
  unfold viewport_resized.
  destruct (run_callbacks_frame
              (resize_listeners (with_viewport w h (page st)))
              {| page := with_viewport w h (page st); trace := trace st |})
    as (st' & Hrun & (Hdom & _) & _).
  by exists st'.
Qed.

Lemma element_resized_keeps_elements (n : NodeId) (st : Browser) :
  ∃ st', element_resized n st = Normal () st'
    ∧ dom (nodes (page st')) = dom (nodes (page st)).
Proof.
  unfold element_resized.
  destruct (run_callbacks_frame (observers_of n (page st)) st)
    as (st' & Hrun & (Hdom & _) & _).
  by exists st'.
Qed.

(** What any call that returns has done to the page. *)
Lemma showElementDimensions_effect (options : option Options) (st st1 : Browser) :
  let b := new_node (page st) in
  showElementDimensions options st = Normal () st1 →
  ∃ c ls os,
    nodes (page st1) = <[b := overlay (resolve_color options) c]> (nodes (page st))
    ∧ body_children (page st1) = append_node b (body_children (page st))
    ∧ document_order (page st1) = append_node b (document_order (page st))
    ∧ listeners (page st1) = listeners (page st) ++ ls
    ∧ observers (page st1) = observers (page st) ++ os
    ∧ Forall (λ l, cl_resultsBloc l.2 = b) ls
    ∧ Forall (λ o, cl_resultsBloc (ro_callback o) = b) os.
Proof.
  intros b Hcall. rewrite showElementDimensions_outcome in Hcall.
  destruct (lookup _ _) as [| |e]; [done|..]; injection Hcall as <-.
  - eexists _, [], []. rewrite nodes_error_displayed.
    cbn [page error_displayed with_overlay with_tree with_nodes body_children
         document_order listeners observers].
    rewrite !app_nil_r. by repeat split.
  - destruct (tree_live options e st) as [Hbody Horder].
    eexists _, _, _. rewrite nodes_live, listeners_live, observers_live.
    do 5 (split; [done|]). split.
    + by repeat constructor.
    + destruct (has_ResizeObserver _); by repeat constructor.
Qed.

(** *** The lookup decides the path *)



Lemma lookup_Match (selector : string) (p : Page) (e : NodeId) :
  lookup selector p = Match e →
  ∃ matches, parse_selector selector = Some matches
             ∧ List.find (matches p) (document_order p) = Some e.
Proof. unfold lookup. repeat case_match; naive_solver. Qed.

Lemma new_node_fresh (p : Page) : nodes p !! new_node p = None.
Proof. unfold new_node. apply not_elem_of_dom. apply is_fresh. Qed.

(** The element found is an object of the store, so it is not the node
    the overlay gets. *)
Lemma lookup_Match_stored (selector : string) (p : Page) (e : NodeId) :
  lookup selector p = Match e → is_Some (nodes p !! e) ∧ e ≠ new_node p.
Proof.
  intros (matches & Hparse & Hfind)%lookup_Match.
  apply find_some in Hfind as [_ Hm].
  pose proof (matches_element _ _ _ _ Hparse Hm) as Hstored.
  split; [done|]. intros ->. rewrite new_node_fresh in Hstored.
  by destruct Hstored.
Qed.

End Paths.

(** ** The claims *)

Section Claims.
Context `{Host}.



(** C3, as amended.  When the lookup finds an element, the call has
    written, and every later run of the function object it registers
    writes, the two-line block into the overlay: the viewport's width
    and height on the first line and, after [<br>], the caller's
    selector with [toFixed(2)] of the width and height of the element's
    bounding box, each followed by [" px"].  A side below 10^21 in
    magnitude is shown with exactly two decimal places, rounded to the
    nearest hundredth. *)
Theorem render_writes_the_two_lines (options : option Options) (st : Browser)
    (e : NodeId) :
  let selector := resolve_selector options in
  let cl := render_closure options e (page st) in
  let b := new_node (page st) in
  let called := with_overlay b (resolve_color options) NoContent (page st) in
  lookup selector (page st) = Match e →
  ∃ st1,
    showElementDimensions options st = Normal () st1
    ∧ ("resize", cl) ∈ listeners (page st1)
    ∧ cl_selector cl = selector ∧ cl_element cl = e ∧ cl_resultsBloc cl = b
    ∧ content <$> nodes (page st1) !! b
      = Some (InnerHTML
                (two_lines selector (innerWidth (page st)) (innerHeight (page st))
                   (toFixed (width (bounding_box called e)) 2)
                   (toFixed (height (bounding_box called e)) 2)))
    ∧ (∀ st2 o, nodes (page st2) !! b = Some o →
       ∃ st3,
         updateDimensions cl st2 = Normal () st3
         ∧ content <$> nodes (page st3) !! b
           = Some (InnerHTML
                     (two_lines selector (innerWidth (page st2)) (innerHeight (page st2))
                        (toFixed (width (bounding_box (page st2) e)) 2)
                        (toFixed (height (bounding_box (page st2) e)) 2))))
    ∧ (∀ x : Q, (Qabs x < inject_Z (10 ^ 21))%Q →
       toFixed x 2 = sign x +:+ two_decimals (Qabs x)
       ∧ has_two_decimals (toFixed x 2) = true).
Proof.
  intros selector cl b called Hfound. unfold selector in *.
  eexists. rewrite showElementDimensions_outcome, Hfound.
  split; [done|]. rewrite listeners_live, nodes_live, lookup_insert_eq.
  split; [apply elem_of_app; right; by apply list_elem_of_singleton|].
  do 4 (split; [done|]). split.
  - intros st2 o Ho. eexists. rewrite updateDimensions_run.
    split; [done|]. cbn [page].
    pose proof (rendered_overlay cl (page st2)) as Hr.
    change (cl_resultsBloc cl) with b in Hr. by rewrite Hr, Ho.
  - intros x Hx. split; [by apply toFixed_two_decimals|].
    by apply has_two_decimals_toFixed.
Qed.


(** C5.  When the lookup finds an element, the call adds exactly one
    listener, its function object for the window's [resize], whether or
    not the browser has ResizeObserver; when it has, the call adds
    exactly one observer, with that function object as callback and the
    found element as only target, and the found element is not the
    overlay; when it has not, no observer is added.  After the call a
    viewport resize makes the overlay show the new viewport size, with
    ResizeObserver or without, and with ResizeObserver a resize of the
    element rewrites the overlay too. *)
Theorem resize_bindings (options : option Options) (st : Browser) (e : NodeId) :
  let selector := resolve_selector options in
  let cl := render_closure options e (page st) in
  let b := new_node (page st) in
  lookup selector (page st) = Match e →
  ∃ st1,
    showElementDimensions options st = Normal () st1
    ∧ listeners (page st1) = listeners (page st) ++ [("resize", cl)]
    ∧ observers (page st1)
      = observers (page st)
        ++ (if has_ResizeObserver (page st)
            then [{| ro_callback := cl; ro_targets := [e] |}] else [])
    ∧ e ≠ b
    ∧ (∀ w h, ∃ st2 p,
         viewport_resized w h st1 = Normal () st2
         ∧ same_frame (with_viewport w h (page st1)) p
         ∧ content <$> nodes (page st2) !! b
           = Some (InnerHTML
                     (two_lines selector w h
                        (toFixed (width (bounding_box p e)) 2)
                        (toFixed (height (bounding_box p e)) 2))))
    ∧ (has_ResizeObserver (page st) = true →
       ∃ st2 p,
         element_resized e st1 = Normal () st2
         ∧ same_frame (page st1) p
         ∧ content <$> nodes (page st2) !! b = Some (InnerHTML (readout cl p))).
Proof.
  intros selector cl b Hfound. unfold selector in *.
  destruct (lookup_Match_stored _ _ _ Hfound) as [_ Hne].
  eexists. rewrite showElementDimensions_outcome, Hfound. split; [done|].
  split; [apply listeners_live|]. split; [apply observers_live|].
  split; [done|].
  assert (is_Some (nodes (page (live options e st)) !! cl_resultsBloc cl)) as Hb.
  { rewrite nodes_live. cbn [cl_resultsBloc cl render_closure].
    by rewrite lookup_insert_eq. }
  split.
  - intros w h. unfold viewport_resized. cbn [page].
    rewrite resize_listeners_live.
    destruct (run_callbacks_last (resize_listeners (page st)) cl
                {| page := with_viewport w h (page (live options e st));
                   trace := trace (live options e st) |} Hb)
      as (st2 & p & Hrun & Hp & _ & Hcontent).
    exists st2, p. split; [done|]. split; [done|].
    change (cl_resultsBloc cl) with b in Hcontent. rewrite Hcontent.
    destruct Hp as (_ & _ & _ & Hw & Hh & _). unfold readout.
    cbn [page with_viewport innerWidth innerHeight] in Hw, Hh.
    by rewrite Hw, Hh.
  - intros Hro. unfold element_resized.
    rewrite observers_of_live by done.
    destruct (run_callbacks_last (observers_of e (page st)) cl (live options e st) Hb)
      as (st2 & p & Hrun & Hp & _ & Hcontent).
    by exists st2, p.
Qed.

(** C6.  When the lookup finds an element, the calls of the call are,
    in this order: the lookup and the creation and styling of the
    overlay; [appendChild] of the overlay on the body; the four calls
    of one render; and only then the ResizeObserver test, the observer
    (when there is ResizeObserver) and the [resize] listener.  The
    render is the only one, and when the call returns the overlay is the
    body's last child and holds the readout of the page as it was right
    after the overlay was appended. *)
Theorem overlay_appended_then_rendered_once (options : option Options)
    (st : Browser) (e : NodeId) :
  let selector := resolve_selector options in
  let color := resolve_color options in
  let cl := render_closure options e (page st) in
  let b := new_node (page st) in
  let appended := with_overlay b color NoContent (page st) in
  lookup selector (page st) = Match e →
  ∃ st1 before render after,
    showElementDimensions options st = Normal () st1
    ∧ trace st1 = trace st ++ before ++ [CallAppendChild b] ++ render ++ after
    ∧ before = CallQuerySelector selector :: overlay_calls b color
    ∧ render = [CallInnerWidth; CallInnerHeight; CallGetBoundingClientRect e;
                CallSetInnerHTML b (readout cl appended)]
    ∧ after = CallHasResizeObserver
              :: (if has_ResizeObserver (page st)
                  then [CallNewResizeObserver cl;
                        CallObserve (length (observers (page st))) e]
                  else [])
              ++ [CallAddEventListener "resize" cl]
    ∧ Forall (λ c, is_render c = false ∧ is_subscription c = false)
        (before ++ [CallAppendChild b])
    ∧ Forall (λ c, is_subscription c = false) render
    ∧ Forall (λ c, is_render c = false ∧ is_measurement c = false) after
    ∧ last (body_children (page st1)) = Some b
    ∧ content <$> nodes (page st1) !! b = Some (InnerHTML (readout cl appended)).
Proof.
  intros selector color cl b appended Hfound. unfold selector in *.
  exists (live options e st), (CallQuerySelector (resolve_selector options)
                                 :: overlay_calls b color),
    (render_calls cl appended),
    (observe_calls cl (rendered cl appended) ++ [CallAddEventListener "resize" cl]).
  rewrite showElementDimensions_outcome, Hfound.
  split; [done|]. cbn [trace live]. split; [reflexivity|].
  split; [done|]. split; [done|]. split; [done|].
  split; [repeat constructor|]. split; [repeat constructor|].
  split.
  { unfold observe_calls.
    change (has_ResizeObserver (rendered cl appended))
      with (has_ResizeObserver (page st)).
    destruct (has_ResizeObserver (page st)); repeat constructor. }
  destruct (tree_live options e st) as [-> _].
  unfold append_node. rewrite last_snoc. split; [done|].
  by rewrite nodes_live, lookup_insert_eq.
Qed.


(** C8.  Two calls create two different new elements: the second call,
    made in any later state that still holds the first overlay, does
    not reuse it and leaves it as it is, and each overlay is the body's
    last child when its call returns.  The function objects and
    observers each call registers capture that call's overlay, and a run
    of a function object leaves every element other than its own overlay
    as it was, the other call's overlay in particular. *)
Theorem two_calls_two_overlays (options1 options2 : option Options)
    (st st1 st1' st2 : Browser) :
  let b1 := new_node (page st) in
  let b2 := new_node (page st1') in
  showElementDimensions options1 st = Normal () st1 →
  is_Some (nodes (page st1') !! b1) →
  showElementDimensions options2 st1' = Normal () st2 →
  b1 ≠ b2
  ∧ nodes (page st) !! b1 = None
  ∧ is_Some (nodes (page st1) !! b1)
  ∧ nodes (page st1') !! b2 = None
  ∧ is_Some (nodes (page st2) !! b2)
  ∧ nodes (page st2) !! b1 = nodes (page st1') !! b1
  ∧ last (body_children (page st1)) = Some b1
  ∧ last (body_children (page st2)) = Some b2
  ∧ (b1 ∈ body_children (page st1') → b1 ∈ body_children (page st2))
  ∧ (∃ ls1 ls2 os1 os2,
       listeners (page st1) = listeners (page st) ++ ls1
       ∧ listeners (page st2) = listeners (page st1') ++ ls2
       ∧ observers (page st1) = observers (page st) ++ os1
       ∧ observers (page st2) = observers (page st1') ++ os2
       ∧ Forall (λ l, cl_resultsBloc l.2 = b1) ls1
       ∧ Forall (λ l, cl_resultsBloc l.2 = b2) ls2
       ∧ Forall (λ o, cl_resultsBloc (ro_callback o) = b1) os1
       ∧ Forall (λ o, cl_resultsBloc (ro_callback o) = b2) os2)
  ∧ (∀ cl st3, ∃ st4,
       updateDimensions cl st3 = Normal () st4
       ∧ (cl_resultsBloc cl = b1 → nodes (page st4) !! b2 = nodes (page st3) !! b2)
       ∧ (cl_resultsBloc cl = b2 → nodes (page st4) !! b1 = nodes (page st3) !! b1)).
Proof.
  intros b1 b2 Hcall1 Hstored Hcall2.
  destruct (showElementDimensions_effect _ _ _ Hcall1)
    as (c1 & ls1 & os1 & Hn1 & Hb1 & _ & Hl1 & Ho1 & Hls1 & Hos1).
  destruct (showElementDimensions_effect _ _ _ Hcall2)
    as (c2 & ls2 & os2 & Hn2 & Hb2 & _ & Hl2 & Ho2 & Hls2 & Hos2).
  fold b1 in Hn1, Hb1, Hls1, Hos1. fold b2 in Hn2, Hb2, Hls2, Hos2.
  assert (b1 ≠ b2) as Hne.
  { intros Heq. rewrite Heq in Hstored. unfold b2 in Hstored.
    rewrite new_node_fresh in Hstored. by destruct Hstored. }
  split; [done|]. split; [apply new_node_fresh|].
  split; [rewrite Hn1, lookup_insert_eq; eauto|].
  split; [apply new_node_fresh|].
  split; [rewrite Hn2, lookup_insert_eq; eauto|].
  split; [by rewrite Hn2, lookup_insert_ne|].
  split; [rewrite Hb1; apply last_snoc|].
  split; [rewrite Hb2; apply last_snoc|].
  split.
  { intros Hin. rewrite Hb2. unfold append_node.
    apply elem_of_app. left. by apply list_elem_of_filter. }
  split; [by exists ls1, ls2, os1, os2|].
  intros cl st3. eexists. rewrite updateDimensions_run. split; [done|].
  cbn [page]. split; intros Hcl; apply rendered_other; congruence.
Qed.

(** C9.  A run of the function object the call registers never throws
    and changes one thing, the content of the overlay: every other
    element object, the target among them, is as before, the overlay
    keeps its tag, class and style, and the tree, the viewport, the
    observers and the listeners (with the selector and the nodes they
    capture) are as before.  Its calls are three reads and the one
    assignment to [innerHTML]. *)
Theorem render_changes_only_the_readout (options : option Options) (st : Browser)
    (e : NodeId) (st2 : Browser) :
  let cl := render_closure options e (page st) in
  let b := new_node (page st) in
  lookup (resolve_selector options) (page st) = Match e →
  ∃ st3,
    updateDimensions cl st2 = Normal () st3
    ∧ (∀ n, n ≠ b → nodes (page st3) !! n = nodes (page st2) !! n)
    ∧ e ≠ b
    ∧ nodes (page st3) !! e = nodes (page st2) !! e
    ∧ tagName <$> nodes (page st3) !! b = tagName <$> nodes (page st2) !! b
    ∧ className <$> nodes (page st3) !! b = className <$> nodes (page st2) !! b
    ∧ style <$> nodes (page st3) !! b = style <$> nodes (page st2) !! b
    ∧ dom (nodes (page st3)) = dom (nodes (page st2))
    ∧ document_order (page st3) = document_order (page st2)
    ∧ body_children (page st3) = body_children (page st2)
    ∧ innerWidth (page st3) = innerWidth (page st2)
    ∧ innerHeight (page st3) = innerHeight (page st2)
    ∧ has_ResizeObserver (page st3) = has_ResizeObserver (page st2)
    ∧ observers (page st3) = observers (page st2)
    ∧ listeners (page st3) = listeners (page st2)
    ∧ trace st3 = trace st2 ++ [CallInnerWidth; CallInnerHeight;
                                CallGetBoundingClientRect e;
                                CallSetInnerHTML b (readout cl (page st2))].
Proof.
  intros cl b [_ Hne]%lookup_Match_stored.
  eexists. rewrite updateDimensions_run. split; [done|]. cbn [page trace].
  split; [intros n Hn; by apply rendered_other|].
  split; [done|].
  split; [by apply rendered_other|].
  pose proof (rendered_overlay cl (page st2)) as Hr.
  change (cl_resultsBloc cl) with b in Hr. rewrite Hr.
  rewrite <- !option_fmap_compose.
  do 3 (split; [done|]).
  destruct (rendered_frame cl (page st2)) as (?&?&?&?&?&?&?&?).
  by repeat split.
Qed.

(** C10.  The class and the thirteen style assignments are made right
    after the element is created, before the call takes either path: on
    both paths the calls start with the lookup and the same styling
    calls, the path's own calls follow, and the overlay of the
    missing-element path carries the same class and style as a live
    overlay of the same color. *)
Theorem error_overlay_styled_as_live (options options' : option Options)
    (st st' : Browser) (e : NodeId) :
  let b := new_node (page st) in
  let b' := new_node (page st') in
  lookup (resolve_selector options) (page st) = NoMatch →
  lookup (resolve_selector options') (page st') = Match e →
  resolve_color options = resolve_color options' →
  ∃ st1 st1' o o' rest rest',
    showElementDimensions options st = Normal () st1
    ∧ showElementDimensions options' st' = Normal () st1'
    ∧ nodes (page st1) !! b = Some o
    ∧ nodes (page st1') !! b' = Some o'
    ∧ className o = "sizing-results-bloc" ∧ className o' = className o
    ∧ style o = overlay_style (resolve_color options) ∧ style o' = style o
    ∧ tagName o' = tagName o
    ∧ trace st1 = trace st ++ CallQuerySelector (resolve_selector options)
                    :: overlay_calls b (resolve_color options) ++ rest
    ∧ trace st1' = trace st' ++ CallQuerySelector (resolve_selector options')
                     :: overlay_calls b' (resolve_color options) ++ rest'
    ∧ rest = [CallSetTextContent b (not_present (resolve_selector options));
              CallAppendChild b]
    ∧ head rest' = Some (CallAppendChild b')
    ∧ Forall (λ c, match c with
                   | CallSetClassName _ _ | CallSetStyle _ _ _ => False
                   | _ => True
                   end) (rest ++ rest').
Proof.
  intros b b' Hmissing Hfound Hcolor.
  eexists _, _, _, _, _, _.
  rewrite !showElementDimensions_outcome, Hmissing, Hfound.
  split; [done|]. split; [done|].
  rewrite nodes_error_displayed, nodes_live, !lookup_insert_eq, <- Hcolor.
  do 7 (split; [done|]). cbn [trace error_displayed live].
  split; [done|]. rewrite <- Hcolor.
  split; [done|]. split; [done|]. split; [done|].
  cbn [app]. unfold observe_calls.
  destruct (has_ResizeObserver _); repeat constructor.
Qed.

End Claims.

(** ** On the demonstration page *)

(** After the resize the overlay of the first call shows the new
    viewport and the container's new width. *)
Example resize_updates_the_readout :
  content <$> nodes (page resized_page) !! 6%nat
  = Some (InnerHTML (two_lines ".maincontent" 1024 768 "853.33" "200.00")).
Proof. vm_compute. reflexivity. Qed.




(** C3, the statement as it stands fails: with the page scaled by 10^18
    in a viewport 1200 px wide, the body is 10^21 px wide, and the
    overlay shows its width as [1e+21 px], which has no decimal places
    (its height, 2 * 10^20 px, still has two). *)
Lemma readout_beyond_fixed_notation :
  showElementDimensions (H := scaled_host (inject_Z (10 ^ 18))) (demo_options "body")
    wide_page
  = Normal () (live (H := scaled_host (inject_Z (10 ^ 18))) (demo_options "body")
                 2%nat wide_page)
  ∧ content <$> nodes (page (live (H := scaled_host (inject_Z (10 ^ 18)))
                               (demo_options "body") 2%nat wide_page)) !! 6%nat
    = Some (InnerHTML (two_lines "body" 1200 800 "1e+21" "200000000000000000000.00"))
  ∧ has_two_decimals "1e+21" = false.
Proof. vm_compute. done. Qed.

(** C3 on the page: the first container is 3200/3 px wide, shown as
    [1066.67]. *)
Lemma render_writes_the_two_lines_witness :
  lookup (H := demo_host) ".maincontent" (page demo_page) = Match 3%nat
  ∧ (Qabs (3200 # 3) < inject_Z (10 ^ 21))%Q
  ∧ ∃ st1,
      showElementDimensions (H := demo_host) (demo_options ".maincontent") demo_page
      = Normal () st1
      ∧ content <$> nodes (page st1) !! 6%nat
        = Some (InnerHTML (two_lines ".maincontent" 1280 720 "1066.67" "200.00"))
      ∧ toFixed (3200 # 3) 2 = sign (3200 # 3) +:+ two_decimals (Qabs (3200 # 3)).
Proof.
  split; [by vm_compute|]. split; [by vm_compute|].
  destruct (render_writes_the_two_lines (H := demo_host)
              (demo_options ".maincontent") demo_page 3%nat)
    as (st1 & Hcall & _ & _ & _ & _ & Hshown & _ & Hfixed); [by vm_compute|].
  exists st1. split; [exact Hcall|]. split; [exact Hshown|].
  apply Hfixed. by vm_compute.
Defined.

(** C5 on the page. *)
Lemma resize_bindings_witness :
  lookup (H := demo_host) ".maincontent" (page demo_page) = Match 3%nat
  ∧ ∃ st1,
      showElementDimensions (H := demo_host) (demo_options ".maincontent") demo_page
      = Normal () st1
      ∧ listeners (page st1)
        = [("resize", render_closure (demo_options ".maincontent") 3%nat (page demo_page))]
      ∧ observers (page st1)
        = [{| ro_callback :=
                render_closure (demo_options ".maincontent") 3%nat (page demo_page);
              ro_targets := [3%nat] |}].
Proof.
  split; [by vm_compute|].
  destruct (resize_bindings (H := demo_host) (demo_options ".maincontent")
              demo_page 3%nat) as (st1 & Hcall & Hlisteners & Hobservers & _);
    [by vm_compute|].
  exists st1. split; [exact Hcall|]. split; [exact Hlisteners | exact Hobservers].
Defined.

(** C6 on the page. *)
Lemma overlay_appended_then_rendered_once_witness :
  lookup (H := demo_host) ".maincontent" (page demo_page) = Match 3%nat
  ∧ ∃ st1,
      showElementDimensions (H := demo_host) (demo_options ".maincontent") demo_page
      = Normal () st1
      ∧ last (body_children (page st1)) = Some 6%nat.
Proof.
  split; [by vm_compute|].
  destruct (overlay_appended_then_rendered_once (H := demo_host)
              (demo_options ".maincontent") demo_page 3%nat)
    as (st1 & before & render & after & Hcall & _ & _ & _ & _ & _ & _ & _ & Hlast & _);
    [by vm_compute|].
  exists st1. split; [exact Hcall | exact Hlast].
Defined.


(** C8 on the page: a call that finds its element, a viewport resize,
    and a call that does not find its element. *)
Lemma two_calls_two_overlays_witness :
  showElementDimensions (H := demo_host) (demo_options ".maincontent") demo_page
  = Normal () (live (H := demo_host) (demo_options ".maincontent") 3%nat demo_page)
  ∧ is_Some (nodes (page resized_page) !! new_node (page demo_page))
  ∧ showElementDimensions (H := demo_host) (demo_options "main") resized_page
    = Normal () (error_displayed (demo_options "main") resized_page)
  ∧ new_node (page demo_page) ≠ new_node (page resized_page).
Proof.
  assert (showElementDimensions (H := demo_host) (demo_options ".maincontent") demo_page
          = Normal () (live (H := demo_host) (demo_options ".maincontent") 3%nat
                         demo_page)) as Hcall1 by (by vm_compute).
  assert (is_Some (nodes (page resized_page) !! new_node (page demo_page)))
    as Hstored by (vm_compute; eauto).
  assert (showElementDimensions (H := demo_host) (demo_options "main") resized_page
          = Normal () (error_displayed (demo_options "main") resized_page))
    as Hcall2 by (by vm_compute).
  split; [exact Hcall1|]. split; [exact Hstored|]. split; [exact Hcall2|].
  apply (two_calls_two_overlays (H := demo_host) _ _ _ _ _ _ Hcall1 Hstored Hcall2).
Defined.

(** C9 on the page. *)
Lemma render_changes_only_the_readout_witness :
  lookup (H := demo_host) ".maincontent" (page demo_page) = Match 3%nat
  ∧ ∃ st3, updateDimensions (H := demo_host)
             (render_closure (demo_options ".maincontent") 3%nat (page demo_page))
             demo_page = Normal () st3
           ∧ nodes (page st3) !! 3%nat = nodes (page demo_page) !! 3%nat.
Proof.
  split; [by vm_compute|].
  destruct (render_changes_only_the_readout (H := demo_host)
              (demo_options ".maincontent") demo_page 3%nat demo_page)
    as (st3 & Hrun & _ & _ & Htarget & _); [by vm_compute|].
  exists st3. split; [exact Hrun | exact Htarget].
Defined.

(** C10 on the page: [main] is missing, [.maincontent] is found. *)
Lemma error_overlay_styled_as_live_witness :
  lookup (H := demo_host) "main" (page demo_page) = NoMatch
  ∧ lookup (H := demo_host) ".maincontent" (page demo_page) = Match 3%nat
  ∧ resolve_color (demo_options "main") = resolve_color (demo_options ".maincontent")
  ∧ ∃ st1 st1' o o',
      nodes (page st1) !! 6%nat = Some o
      ∧ nodes (page st1') !! 6%nat = Some o'
      ∧ style o' = style o.
Proof.
  split; [by vm_compute|]. split; [by vm_compute|]. split; [reflexivity|].
  destruct (error_overlay_styled_as_live (H := demo_host) (demo_options "main")
              (demo_options ".maincontent") demo_page demo_page 3%nat)
    as (st1 & st1' & o & o' & rest & rest' & _ & _ & Ho & Ho' & _ & _ & _ & Hstyle & _);
    [by vm_compute | by vm_compute | reflexivity |].
  exists st1, st1', o, o'. split; [exact Ho|]. split; [exact Ho' | exact Hstyle].
Defined.

(** * More of the code *)

(** ** What a call keeps *)

Section Kept.
Context `{Host}.

Lemma append_node_fresh (n : NodeId) (l : list NodeId) :
  n ∉ l → append_node n l = l ++ [n].
Proof.
  intros Hn. unfold append_node. f_equal.
  induction l as [|m l IH]; [done|].
  apply not_elem_of_cons in Hn as [Hm Hl].
  rewrite filter_cons_True by done. by rewrite IH.
Qed.

Lemma new_node_not_stored (p : Page) : new_node p ∉ dom (nodes p).
Proof. unfold new_node. apply is_fresh. Qed.

Lemma new_node_not_in (p : Page) (l : list NodeId) :
  Forall (λ n, n ∈ dom (nodes p)) l → new_node p ∉ l.
Proof.
  intros Hl Hin. rewrite Forall_forall in Hl.
  by apply (new_node_not_stored p), Hl.
Qed.

(** Where a call leaves the browser, whatever its outcome. *)
Lemma state_after_call (options : option Options) (st : Browser) :
  state_after (showElementDimensions options st)
  = match lookup (resolve_selector options) (page st) with
    | Rejected =>
        {| page := page st;
           trace := trace st ++ [CallQuerySelector (resolve_selector options)] |}
    | NoMatch => error_displayed options st
    | Match e => live options e st
    end.
Proof.
  rewrite showElementDimensions_outcome. by destruct (lookup _ _).
Qed.

(** The page after a call, field by field. *)
Lemma page_after_call (options : option Options) (st : Browser) :
  let p := page st in
  let p' := page (state_after (showElementDimensions options st)) in
  let b := new_node p in
  (lookup (resolve_selector options) p = Rejected ∧ p' = p
   ∨ lookup (resolve_selector options) p ≠ Rejected
     ∧ ∃ c ls os,
       nodes p' = <[b := overlay (resolve_color options) c]> (nodes p)
       ∧ document_order p' = append_node b (document_order p)
       ∧ body_children p' = append_node b (body_children p)
       ∧ listeners p' = listeners p ++ ls
       ∧ observers p' = observers p ++ os
       ∧ (ls = [] ∧ os = []
          ∨ ∃ e, lookup (resolve_selector options) p = Match e
                 ∧ ls = [("resize", render_closure options e p)]
                 ∧ os = if has_ResizeObserver p
                        then [{| ro_callback := render_closure options e p;
                                 ro_targets := [e] |}]
                        else []))
  ∧ innerWidth p' = innerWidth p
  ∧ innerHeight p' = innerHeight p
  ∧ has_ResizeObserver p' = has_ResizeObserver p.
Proof.
  intros p p' b. unfold p'. rewrite state_after_call.
  destruct (lookup _ _) as [| |e] eqn:Hlookup.
  - split; [by left | done].
  - split; [|done]. right. split; [done|]. eexists _, [], [].
    rewrite nodes_error_displayed.
    cbn [page error_displayed with_overlay with_tree with_nodes body_children
         document_order listeners observers].
    rewrite !app_nil_r. repeat split; try done. by left.
  - destruct (tree_live options e st) as [Hbody Horder].
    split.
    + right. split; [done|]. eexists _, _, _.
      rewrite nodes_live, listeners_live, observers_live.
      do 5 (split; [done|]). right. by exists e.
    + unfold live, observed. cbn [page].
      by destruct (has_ResizeObserver (rendered _ _)).
Qed.


End Kept.

(** ** What holds of the page over time *)

Section Over_time.
Context `{Host}.

(** [well_formed] reads the element objects only through the store's
    domain. *)
Lemma well_formed_ext (p p' : Page) :
  dom (nodes p') = dom (nodes p) →
  document_order p' = document_order p →
  body_children p' = body_children p →
  listeners p' = listeners p →
  observers p' = observers p →
  well_formed p → well_formed p'.
Proof.
  unfold well_formed, closures. by intros -> -> -> -> ->.
Qed.

Lemma well_formed_same_frame (p p' : Page) :
  same_frame p p' → well_formed p → well_formed p'.
Proof.
  intros (?&?&?&?&?&?&?&?). by apply well_formed_ext.
Qed.

(** In a well-formed page every overlay of a function object is an
    element object. *)
Lemma well_formed_bound_stored (p : Page) :
  well_formed p → Forall (λ n, n ∈ dom (nodes p)) (bound p).
Proof.
  intros (Horder & Hbody & Hclosures & _). unfold bound.
  rewrite Forall_fmap. eapply Forall_impl; [exact Hclosures|].
  intros cl (_ & Hb & _). cbn.
  rewrite Forall_forall in Horder, Hbody. auto.
Qed.

Lemma well_formed_after_call (options : option Options) (st : Browser) :
  well_formed (page st) →
  well_formed (page (state_after (showElementDimensions options st))).
Proof.
  intros Hwf.
  destruct (page_after_call options st) as (Hpage & _).
  destruct Hpage
    as [[_ ->]|(_ & c & ls & os & Hnodes & Horder & Hbody & Hls & Hos & Hnew)];
    [done|].
  pose proof (well_formed_bound_stored _ Hwf) as Hbound.
  destruct Hwf as (Hwf1 & Hwf2 & Hwf3 & Hwf4 & Hwf4' & Hwf5).
  set (p := page st) in *. set (b := new_node p) in *.
  set (p' := page (state_after _)) in *.
  assert (b ∉ document_order p) as Hb1 by (by apply new_node_not_in).
  assert (b ∉ body_children p) as Hb2.
  { intros Hin. rewrite Forall_forall in Hwf2. by apply Hb1, Hwf2. }
  rewrite append_node_fresh in Horder, Hbody by done.
  assert (dom (nodes p') = {[b]} ∪ dom (nodes p)) as Hdom
    by (by rewrite Hnodes, dom_insert_L).
  assert (Forall (λ cl, cl_element cl ∈ dom (nodes p')
                        ∧ cl_resultsBloc cl ∈ body_children p'
                        ∧ cl_element cl ≠ cl_resultsBloc cl) (closures p))
    as Hold.
  { eapply Forall_impl; [exact Hwf3|]. intros cl (He & Hcb & Hne).
    rewrite Hdom, Hbody. split; [apply elem_of_union; by right|].
    split; [|done]. apply elem_of_app. by left. }
  assert (∀ e, lookup (resolve_selector options) p = Match e →
            let cl := render_closure options e p in
            cl_element cl ∈ dom (nodes p')
            ∧ cl_resultsBloc cl ∈ body_children p'
            ∧ cl_element cl ≠ cl_resultsBloc cl) as Hcl.
  { intros e [He Hne]%lookup_Match_stored. cbn.
    rewrite Hdom, Hbody.
    split; [apply elem_of_union; right; by apply elem_of_dom|].
    split; [|done]. apply elem_of_app. right. by apply list_elem_of_singleton. }
  unfold well_formed. split.
  { rewrite Horder, Hdom. apply Forall_app. split.
    - eapply Forall_impl; [exact Hwf1|]. intros n Hn. cbn.
      apply elem_of_union. by right.
    - apply Forall_singleton, elem_of_union. left. by apply elem_of_singleton. }
  split.
  { rewrite Hbody, Horder. apply Forall_app. split.
    - eapply Forall_impl; [exact Hwf2|]. intros n Hn. cbn.
      apply elem_of_app. by left.
    - apply Forall_singleton, elem_of_app. right. by apply list_elem_of_singleton. }
  unfold closures in *. rewrite Hls, Hos, !fmap_app.
  apply Forall_app in Hold as [Hold1 Hold2].
  destruct Hnew as [[-> ->]|(e & Hlookup & -> & ->)].
  - rewrite !fmap_nil, ?app_nil_r.
    split; [by apply Forall_app|]. split; [done|]. split; [done|].
    eapply Forall_impl; [exact Hwf5|]. intros o [Ho1 Ho2]. cbn.
    by rewrite ?app_nil_r.
  - specialize (Hcl e Hlookup). split.
    { rewrite !Forall_app. split; [split|split]; try done.
      - by apply Forall_singleton.
      - destruct (has_ResizeObserver p); [by apply Forall_singleton | done]. }
    split.
    { cbn [fmap list_fmap]. apply NoDup_app. split; [done|]. split.
      - intros n Hn Hin. apply list_elem_of_singleton in Hin as ->.
        rewrite Forall_forall in Hbound. apply (new_node_not_stored p).
        apply Hbound. unfold bound, closures. rewrite fmap_app.
        apply elem_of_app. by left.
      - apply NoDup_singleton. }
    split.
    { destruct (has_ResizeObserver p); [|by rewrite !fmap_nil, app_nil_r].
      cbn [fmap list_fmap]. apply NoDup_app. split; [done|]. split.
      - intros n Hn Hin. apply list_elem_of_singleton in Hin as ->.
        rewrite Forall_forall in Hbound. apply (new_node_not_stored p).
        apply Hbound. unfold bound, closures. rewrite fmap_app.
        apply elem_of_app. by right.
      - apply NoDup_singleton. }
    apply Forall_app. split.
    + eapply Forall_impl; [exact Hwf5|]. intros o [Ho1 Ho2]. cbn.
      split; [|done]. apply elem_of_app. by left.
    + destruct (has_ResizeObserver p); [|done].
      apply Forall_singleton. split; [|done].
      apply elem_of_app. right. by apply list_elem_of_singleton.
Qed.

Lemma well_formed_after_callbacks (cbs : list Closure) (st st' : Browser) :
  run_callbacks cbs st = Normal () st' →
  well_formed (page st) → well_formed (page st').
Proof.
  intros Hrun. destruct (run_callbacks_frame cbs st) as (st1 & Hrun1 & Hframe & _).
  rewrite Hrun in Hrun1. injection Hrun1 as <-.
  by apply well_formed_same_frame.
Qed.

Lemma well_formed_after_event (ev : Event) (st : Browser) :
  well_formed (page st) → well_formed (page (state_after (handle ev st))).
Proof.
  intros Hwf. destruct ev as [options|w h|n]; cbn [handle].
  - by apply well_formed_after_call.
  - unfold viewport_resized. cbn [page].
    destruct (run_callbacks_frame
                (resize_listeners (with_viewport w h (page st)))
                {| page := with_viewport w h (page st); trace := trace st |})
      as (st' & -> & Hframe & _).
    cbn [state_after]. apply (well_formed_same_frame _ _ Hframe).
    by apply (well_formed_ext (page st)).
  - unfold element_resized.
    destruct (run_callbacks_frame (observers_of n (page st)) st)
      as (st' & -> & Hframe & _).
    by apply (well_formed_same_frame _ _ Hframe).
Qed.

(** X2.  Calls and notifications, in any number and order, keep a
    well-formed page well-formed: the tree is made of element objects,
    every registered function object captures an element object and an
    overlay that is a child of the body and not that element, no two
    listeners write the same overlay and no two observers do, and every
    observer watches just the element its callback measures, its
    callback being a [resize] listener as well. *)
Theorem well_formed_forever (evs : list Event) (st : Browser) :
  well_formed (page st) → well_formed (page (run evs st)).
Proof.
  revert st. induction evs as [|ev evs IH]; intros st Hwf; [done|].
  cbn [run]. by apply IH, well_formed_after_event.
Qed.

(** *** Every overlay is rewritten by its own function object *)

Lemma NoDup_fmap_filter {A B} (f : A → B) (P : A → Prop)
    `{!∀ x, Decision (P x)} (l : list A) :
  NoDup (f <$> l) → NoDup (f <$> filter P l).
Proof.
  induction l as [|x l IH]; [done|].
  rewrite fmap_cons, NoDup_cons. intros [Hx Hl].
  destruct (decide (P x)).
  - rewrite filter_cons_True, fmap_cons, NoDup_cons by done.
    split; [|by apply IH]. intros (y & Hy & Hin)%list_elem_of_fmap.
    apply Hx, list_elem_of_fmap. exists y. split; [done|].
    by apply list_elem_of_filter in Hin as [_ Hin].
  - rewrite filter_cons_False by done. by apply IH.
Qed.

(** When the callbacks write different overlays, each overlay ends up
    with the readout of its own callback. *)
Lemma run_callbacks_each (cbs : list Closure) (cl : Closure) (st : Browser) :
  NoDup (cl_resultsBloc <$> cbs) → cl ∈ cbs →
  cl_resultsBloc cl ∈ dom (nodes (page st)) →
  ∃ st' p, run_callbacks cbs st = Normal () st'
    ∧ same_frame (page st) p
    ∧ content <$> nodes (page st') !! cl_resultsBloc cl
      = Some (InnerHTML (readout cl p)).
Proof.
  revert st. induction cbs as [|cb cbs IH]; intros st Hdup Hin Hstored.
  { by apply elem_of_nil in Hin. }
  rewrite fmap_cons, NoDup_cons in Hdup. destruct Hdup as [Hcb Hdup].
  cbn [run_callbacks]. unfold mbind, M_bind. rewrite updateDimensions_run.
  set (st1 := {| page := rendered cb (page st);
                 trace := trace st ++ render_calls cb (page st) |}).
  apply elem_of_cons in Hin as [->|Hin].
  - destruct (run_callbacks_frame cbs st1) as (st' & Hrun & _ & Hother).
    exists st', (page st). split; [done|]. split; [apply same_frame_refl|].
    rewrite Hother by done. cbn [page st1]. rewrite rendered_overlay.
    apply elem_of_dom in Hstored as [o ->]. done.
  - destruct (IH st1 Hdup Hin) as (st' & p & Hrun & Hp & Hcontent).
    { cbn [page st1]. by destruct (rendered_frame cb (page st)) as [-> _]. }
    exists st', p. split; [done|]. split; [|done].
    eapply same_frame_trans; [apply rendered_frame | exact Hp].
Qed.

Lemma well_formed_closure_stored (p : Page) (cl : Closure) :
  well_formed p → cl ∈ closures p → cl_resultsBloc cl ∈ dom (nodes p).
Proof.
  intros Hwf Hcl. pose proof (well_formed_bound_stored _ Hwf) as Hbound.
  rewrite Forall_forall in Hbound. apply Hbound.
  unfold bound. by apply list_elem_of_fmap_2.
Qed.

(** X3.  On a well-formed page a viewport resize rewrites every overlay
    that has a [resize] listener, however many there are: the resize
    never throws, and afterwards each such overlay holds the block of
    its own function object, with the new viewport size on its first
    line. *)
Theorem a_viewport_resize_reaches_every_overlay (w h : Z) (st : Browser)
    (cl : Closure) :
  well_formed (page st) →
  ("resize", cl) ∈ listeners (page st) →
  ∃ st' p,
    viewport_resized w h st = Normal () st'
    ∧ same_frame (with_viewport w h (page st)) p
    ∧ content <$> nodes (page st') !! cl_resultsBloc cl
      = Some (InnerHTML
                (two_lines (cl_selector cl) w h
                   (toFixed (width (bounding_box p (cl_element cl))) 2)
                   (toFixed (height (bounding_box p (cl_element cl))) 2))).
Proof.
  intros Hwf Hin. unfold viewport_resized. cbn [page].
  destruct (run_callbacks_each
              (resize_listeners (with_viewport w h (page st))) cl
              {| page := with_viewport w h (page st); trace := trace st |})
    as (st' & p & Hrun & Hp & Hcontent).
  - unfold resize_listeners. cbn [listeners with_viewport].
    rewrite <- list_fmap_compose. apply NoDup_fmap_filter.
    rewrite list_fmap_compose. by destruct Hwf as (_ & _ & _ & Hdup & _).
  - unfold resize_listeners. cbn [listeners with_viewport].
    apply list_elem_of_fmap. exists ("resize", cl). split; [done|].
    by apply list_elem_of_filter.
  - cbn [page with_viewport nodes]. apply (well_formed_closure_stored _ _ Hwf).
    unfold closures. apply elem_of_app. left.
    apply list_elem_of_fmap. by exists ("resize", cl).
  - exists st', p. split; [done|]. split; [done|]. rewrite Hcontent.
    destruct Hp as (_ & _ & _ & Hw & Hh & _). unfold readout.
    cbn [with_viewport innerWidth innerHeight] in Hw, Hh. by rewrite Hw, Hh.
Qed.

(** X4.  On a well-formed page a resize of an element rewrites the
    overlay of every observer that watches it, and what is written is
    the readout of that very element: the notification never throws,
    and afterwards the overlay of each such observer holds the block
    for the element and the selector its callback captured. *)
Theorem an_element_resize_reaches_its_overlays (n : NodeId) (st : Browser)
    (o : ResizeObserver) :
  well_formed (page st) →
  o ∈ observers (page st) →
  n ∈ ro_targets o →
  let cl := ro_callback o in
  ∃ st' p,
    element_resized n st = Normal () st'
    ∧ same_frame (page st) p
    ∧ cl_element cl = n
    ∧ content <$> nodes (page st') !! cl_resultsBloc cl
      = Some (InnerHTML
                (two_lines (cl_selector cl) (innerWidth (page st)) (innerHeight (page st))
                   (toFixed (width (bounding_box p n)) 2)
                   (toFixed (height (bounding_box p n)) 2))).
Proof.
  intros Hwf Ho Hn cl. unfold element_resized.
  assert (cl_element cl = n) as Htarget.
  { destruct Hwf as (_ & _ & _ & _ & _ & Hobs).
    rewrite Forall_forall in Hobs. destruct (Hobs o Ho) as [_ Htargets].
    rewrite Htargets in Hn. by apply list_elem_of_singleton in Hn. }
  destruct (run_callbacks_each (observers_of n (page st)) cl st)
    as (st' & p & Hrun & Hp & Hcontent).
  - unfold observers_of. rewrite <- list_fmap_compose.
    apply NoDup_fmap_filter. rewrite list_fmap_compose.
    by destruct Hwf as (_ & _ & _ & _ & Hdup & _).
  - unfold observers_of. apply list_elem_of_fmap. exists o. split; [done|].
    by apply list_elem_of_filter.
  - apply (well_formed_closure_stored _ _ Hwf).
    unfold closures. apply elem_of_app. right. by apply list_elem_of_fmap_2.
  - exists st', p. split; [done|]. split; [done|]. split; [done|].
    rewrite Hcontent. destruct Hp as (_ & _ & _ & Hw & Hh & _).
    unfold readout. by rewrite Hw, Hh, Htarget.
Qed.

(** *** What is never written *)

Lemma resize_listeners_closures (p : Page) (cl : Closure) :
  cl ∈ resize_listeners p → cl ∈ closures p.
Proof.
  unfold resize_listeners, closures.
  intros (l & -> & [_ Hl]%list_elem_of_filter)%list_elem_of_fmap.
  apply elem_of_app. left. by apply list_elem_of_fmap_2.
Qed.

Lemma observers_of_closures (n : NodeId) (p : Page) (cl : Closure) :
  cl ∈ observers_of n p → cl ∈ closures p.
Proof.
  unfold observers_of, closures.
  intros (o & -> & [_ Ho]%list_elem_of_filter)%list_elem_of_fmap.
  apply elem_of_app. right. by apply list_elem_of_fmap_2.
Qed.

Lemma not_bound_callbacks (n : NodeId) (p : Page) (cbs : list Closure) :
  (∀ cl, cl ∈ cbs → cl ∈ closures p) →
  n ∉ bound p → n ∉ cl_resultsBloc <$> cbs.
Proof.
  intros Hcbs Hn (cl & -> & Hcl)%list_elem_of_fmap.
  apply Hn. unfold bound. by apply list_elem_of_fmap_2, Hcbs.
Qed.

(** The overlays that function objects write after a call are those of
    before and, at most, the new one. *)
Lemma bound_after_call (options : option Options) (st : Browser) (n : NodeId) :
  n ∈ bound (page (state_after (showElementDimensions options st))) →
  n ∈ bound (page st) ∨ n = new_node (page st).
Proof.
  destruct (page_after_call options st) as (Hpage & _).
  destruct Hpage as [[_ ->]|(_ & c & ls & os & _ & _ & _ & Hls & Hos & Hnew)];
    [by left|].
  unfold bound, closures. rewrite Hls, Hos, !fmap_app.
  rewrite !elem_of_app.
  destruct Hnew as [[-> ->]|(e & _ & -> & ->)].
  - rewrite !fmap_nil, !elem_of_nil. intros [[?|[]]|[?|[]]]; left; auto.
  - destruct (has_ResizeObserver _); cbn [fmap list_fmap];
      rewrite ?list_elem_of_singleton, ?elem_of_nil;
      intros [[?|?]|[?|?]]; auto; done.
Qed.

(** An element object that no function object writes stays as it is,
    stored and unwritten, through an event. *)
Lemma event_keeps_unbound (n : NodeId) (ev : Event) (st : Browser) :
  n ∈ dom (nodes (page st)) → n ∉ bound (page st) →
  let st' := state_after (handle ev st) in
  nodes (page st') !! n = nodes (page st) !! n
  ∧ n ∈ dom (nodes (page st')) ∧ n ∉ bound (page st').
Proof.
  intros Hstored Hunbound st'.
  assert (nodes (page st') !! n = nodes (page st) !! n
          ∧ n ∉ bound (page st')) as [Hnode Hbound].
  { unfold st'. destruct ev as [options|w h|m]; cbn [handle].
    - split.
      + destruct (page_after_call options st) as (Hpage & _).
        destruct Hpage as [[_ ->]|(_ & c & ls & os & -> & _)]; [done|].
        rewrite lookup_insert_ne; [done|].
        intros <-. by apply (new_node_not_stored (page st)).
      + intros [Hn| ->]%bound_after_call; [done|].
        by apply (new_node_not_stored (page st)).
    - unfold viewport_resized. cbn [page].
      destruct (run_callbacks_frame
                  (resize_listeners (with_viewport w h (page st)))
                  {| page := with_viewport w h (page st); trace := trace st |})
        as (st1 & -> & Hframe & Hother).
      cbn [state_after]. split.
      + rewrite Hother; [done|].
        apply (not_bound_callbacks _ (page st)); [|done].
        intros cl Hcl. by apply resize_listeners_closures.
      + destruct Hframe as (_ & _ & _ & _ & _ & _ & Hos & Hls).
        unfold bound, closures. by rewrite Hos, Hls.
    - unfold element_resized.
      destruct (run_callbacks_frame (observers_of m (page st)) st)
        as (st1 & -> & Hframe & Hother).
      cbn [state_after]. split.
      + rewrite Hother; [done|].
        apply (not_bound_callbacks _ (page st)); [|done].
        intros cl Hcl. by apply (observers_of_closures m).
      + destruct Hframe as (_ & _ & _ & _ & _ & _ & Hos & Hls).
        unfold bound, closures. by rewrite Hos, Hls. }
  split; [done|]. split; [|done].
  apply elem_of_dom. rewrite Hnode. by apply elem_of_dom.
Qed.

Lemma run_keeps_unbound (n : NodeId) (evs : list Event) (st : Browser) :
  n ∈ dom (nodes (page st)) → n ∉ bound (page st) →
  nodes (page (run evs st)) !! n = nodes (page st) !! n
  ∧ n ∉ bound (page (run evs st)).
Proof.
  revert st. induction evs as [|ev evs IH]; intros st Hstored Hunbound; [done|].
  destruct (event_keeps_unbound n ev st Hstored Hunbound) as (Hnode & Hs & Hu).
  cbn [run]. destruct (IH _ Hs Hu) as [-> Hu']. by rewrite Hnode.
Qed.


(** X6.  On a well-formed page the overlay of a call that found no
    element is final: whatever calls and notifications follow, it goes
    on holding the message as its text. *)
Theorem the_message_is_never_replaced (options : option Options)
    (evs : list Event) (st : Browser) :
  let selector := resolve_selector options in
  let b := new_node (page st) in
  well_formed (page st) →
  lookup selector (page st) = NoMatch →
  nodes (page (run (Called options :: evs) st)) !! b
  = Some (overlay (resolve_color options) (TextContent (not_present selector))).
Proof.
  intros selector b Hwf Hmissing. cbn [run handle].
  rewrite state_after_call. fold selector. rewrite Hmissing.
  destruct (run_keeps_unbound b evs (error_displayed options st)) as [-> _].
  - rewrite nodes_error_displayed, dom_insert_L.
    apply elem_of_union. left. by apply elem_of_singleton.
  - change (bound (page (error_displayed options st))) with (bound (page st)).
    intros Hb. pose proof (well_formed_bound_stored _ Hwf) as Hbound.
    rewrite Forall_forall in Hbound.
    by apply (new_node_not_stored (page st)), Hbound.
  - by rewrite nodes_error_displayed, lookup_insert_eq.
Qed.

(** *** What a render leaves of an element *)






End Over_time.

(** *** A render that finds nothing changed *)

Section Again.
Context `{Host}.

(** X8.  A render holds no state of its own: run again on a layout that
    gives the target the box it had, it leaves the page exactly as the
    run before left it. *)
Theorem a_second_render_changes_nothing (cl : Closure) (st : Browser) :
  bounding_box (rendered cl (page st)) (cl_element cl)
  = bounding_box (page st) (cl_element cl) →
  ∃ st1 st2,
    updateDimensions cl st = Normal () st1
    ∧ updateDimensions cl st1 = Normal () st2
    ∧ page st2 = page st1
    ∧ trace st2 = trace st1 ++ render_calls cl (page st).
Proof.
  intros Hbox.
  assert (readout cl (rendered cl (page st)) = readout cl (page st)) as Hreadout
    by (unfold readout; by rewrite Hbox).
  exists {| page := rendered cl (page st);
            trace := trace st ++ render_calls cl (page st) |},
         {| page := rendered cl (rendered cl (page st));
            trace := (trace st ++ render_calls cl (page st))
                     ++ render_calls cl (rendered cl (page st)) |}.
  split; [apply updateDimensions_run|].
  split; [apply updateDimensions_run|]. cbn [page trace]. split.
  - unfold rendered at 1. rewrite Hreadout. unfold rendered, with_nodes. cbn.
    f_equal. rewrite alter_alter_eq. apply alter_ext. by intros [].
  - unfold render_calls. by rewrite Hreadout.
Qed.

End Again.

(** ** How fine the readout is *)

Lemma append_tail_inj (a a' b b' : string) :
  String.length b = String.length b' → a +:+ b = a' +:+ b' → a = a' ∧ b = b'.
Proof.
  intros Hlen. revert a'. induction a as [|c a IH]; intros [|c' a'] Heq.
  - done.
  - change ("" +:+ b) with b in Heq. rewrite Heq, length_append in Hlen.
    simpl in Hlen. lia.
  - change ("" +:+ b') with b' in Heq. rewrite <- Heq, length_append in Hlen.
    simpl in Hlen. lia.
  - rewrite !append_cons in Heq. injection Heq as -> Heq.
    by destruct (IH _ Heq) as [-> ->].
Qed.

Lemma digit_inj (a b : Z) : 0 ≤ a < 10 → 0 ≤ b < 10 → digit a = digit b → a = b.
Proof.
  intros Ha Hb.
  assert (a = 0 ∨ a = 1 ∨ a = 2 ∨ a = 3 ∨ a = 4 ∨ a = 5 ∨ a = 6 ∨ a = 7 ∨ a = 8 ∨ a = 9)
    as Hcases by lia.
  assert (b = 0 ∨ b = 1 ∨ b = 2 ∨ b = 3 ∨ b = 4 ∨ b = 5 ∨ b = 6 ∨ b = 7 ∨ b = 8 ∨ b = 9)
    as Hcases' by lia.
  clear Ha Hb.
  repeat (destruct Hcases as [->|Hcases]); try subst a;
    repeat (destruct Hcases' as [->|Hcases']); try subst b;
    done.
Qed.

Lemma two_decimals_inj (x y : Q) :
  0 ≤ hundredths x → 0 ≤ hundredths y →
  two_decimals x = two_decimals y → hundredths x = hundredths y.
Proof.
  unfold two_decimals. set (n := hundredths x). set (m := hundredths y).
  intros Hn Hm Heq.
  apply append_tail_inj in Heq as [Hint Hfrac]; [|done].
  apply (inj pretty) in Hint.
  injection Hfrac as H1 H2.
  apply digit_inj in H1; [|Z.div_mod_to_equations; lia..].
  apply digit_inj in H2; [|Z.div_mod_to_equations; lia..].
  Z.div_mod_to_equations. lia.
Qed.

Lemma toFixed_nonneg (x : Q) :
  (0 <= x)%Q → (x < inject_Z (10 ^ 21))%Q → toFixed x 2 = two_decimals x.
Proof.
  intros H0 Hx.
  assert (Qabs x = x) as Habs.
  { destruct x as [a d]. unfold Qle in H0. cbn in *. f_equal. lia. }
  rewrite toFixed_two_decimals by (by rewrite Habs).
  rewrite Habs. unfold sign. destruct (Qlt_le_dec x 0) as [Hlt|_]; [|done].
  by apply Qlt_not_le in Hlt.
Qed.

(** The hundredths shown are the nearest to the number, the larger on a
    tie. *)
Lemma hundredths_nearest (x : Q) :
  (inject_Z (hundredths x) - (1 # 2) <= x * inject_Z 100)%Q
  ∧ (x * inject_Z 100 < inject_Z (hundredths x) + (1 # 2))%Q.
Proof.
  unfold hundredths. set (v := (x * inject_Z 100 + (1 # 2))%Q).
  pose proof (Qfloor_le v) as Hle. pose proof (Qlt_floor v) as Hlt.
  rewrite inject_Z_plus in Hlt. unfold v in *.
  change (inject_Z 1) with 1%Q in Hlt. change (inject_Z 100) with 100%Q in *.
  split; lra.
Qed.

(** X9.  The readout is exact to the hundredth of a pixel: two sizes
    below 10^21 are shown by the same text exactly when they round to
    the same number of hundredths, so sizes shown alike are less than a
    hundredth apart, and sizes that differ by a hundredth or more are
    shown differently. *)
Theorem sizes_shown_alike_are_within_a_hundredth (x y : Q) :
  (0 <= x)%Q → (x < inject_Z (10 ^ 21))%Q →
  (0 <= y)%Q → (y < inject_Z (10 ^ 21))%Q →
  (toFixed x 2 = toFixed y 2 ↔ hundredths x = hundredths y)
  ∧ (toFixed x 2 = toFixed y 2 → (Qabs (x - y) < 1 # 100)%Q)
  ∧ ((1 # 100 <= Qabs (x - y))%Q → toFixed x 2 ≠ toFixed y 2).
Proof.
  intros Hx0 Hx Hy0 Hy. rewrite !toFixed_nonneg by done.
  assert (two_decimals x = two_decimals y ↔ hundredths x = hundredths y) as Hiff.
  { split.
    - apply two_decimals_inj; by apply hundredths_nonneg.
    - unfold two_decimals. by intros ->. }
  assert (two_decimals x = two_decimals y → (Qabs (x - y) < 1 # 100)%Q) as Hnear.
  { intros Heq%Hiff.
    destruct (hundredths_nearest x) as [Hx1 Hx2].
    destruct (hundredths_nearest y) as [Hy1 Hy2].
    rewrite Heq in Hx1, Hx2. set (n := inject_Z (hundredths y)) in *.
    change (inject_Z 100) with 100%Q in *.
    apply Qabs_Qlt_condition. split; lra. }
  split; [done|]. split; [done|].
  intros Hfar Heq. apply Hnear in Heq. by apply Qlt_not_le in Heq.
Qed.

(** ** The page's copy of the function *)

Section Copy.
Context `{Host}.

Lemma updateDimensions_page_run (cl : Closure) (st : Browser) :
  updateDimensions_page cl st
  = Normal () {| page := rendered_page cl (page st);
                 trace := trace st ++ render_calls_page cl (page st) |}.
Proof.
  unfold updateDimensions_page, window_innerWidth, window_innerHeight,
    getBoundingClientRect, assign_innerHTML, call, mbind, M_bind.
  simpl. unfold rendered_page, readout_page, two_lines_page, render_calls_page.
  rewrite <- !app_assoc. simpl. rewrite !append_assoc. reflexivity.
Qed.

(** The copy's found-element path, lines 175 to 207. *)
Lemma showElementDimensions_page_found (options : option Options) (st : Browser)
    (matches : Page → NodeId → bool) (e : NodeId) :
  parse_selector (resolve_selector options) = Some matches →
  List.find (matches (page st)) (document_order (page st)) = Some e →
  showElementDimensions_page options st = Normal () (live_page options e st).
Proof.
  intros Hparse Hfind. unfold live_page, render_closure.
  set (selector := resolve_selector options). set (color := resolve_color options).
  set (b := new_node (page st)).
  set (cl := {| cl_element := e; cl_resultsBloc := b; cl_selector := selector |}).
  set (p1 := with_overlay b color NoContent (page st)).
  set (p2 := rendered_page cl p1).
  unfold showElementDimensions_page, document_querySelector.
  unfold mbind at 1. unfold M_bind at 1. rewrite Hparse.
  unfold call at 1. rewrite Hfind.
  unfold document_createElement, assign_className, assign_style,
    document_body_appendChild.
  unfold mbind, M_bind, call at 1 2 3 4 5 6 7 8 9 10 11 12 13 14 15 16.
  cbn [page trace]. change (id (page st)) with (page st).
  change (fresh (dom (nodes (page st)))) with b. fold selector color cl.
  rewrite updateDimensions_page_run. cbn [page trace].
  rewrite !with_nodes_with_nodes.
  match goal with |- context [rendered_page cl ?p] => replace p with p1 end.
  2: { unfold p1, with_overlay, with_nodes. do 2 f_equal.
       symmetry. apply overlay_built. }
  fold p2. unfold window_has_ResizeObserver, call at 1. cbn [page trace].
  unfold observed, observe_calls.
  destruct (has_ResizeObserver p2).
  - unfold new_ResizeObserver, ResizeObserver_observe, window_addEventListener, call.
    cbn [page trace]. f_equal. f_equal.
    + unfold with_listeners, with_observers. cbn [observers].
      rewrite alter_last. reflexivity.
    + rewrite <- !app_assoc. reflexivity.
  - unfold window_addEventListener, call, mret, M_ret.
    cbn [page trace]. f_equal. f_equal.
    rewrite <- !app_assoc. reflexivity.
Qed.

(** On the other two paths the copy's text is the file's. *)
Lemma showElementDimensions_page_other (options : option Options) (st : Browser) :
  (∀ e, lookup (resolve_selector options) (page st) ≠ Match e) →
  showElementDimensions_page options st = showElementDimensions options st.
Proof.
  intros Hlookup. unfold lookup in Hlookup.
  unfold showElementDimensions_page, showElementDimensions, document_querySelector,
    mbind, M_bind.
  destruct (parse_selector (resolve_selector options)) as [matches|]; [|done].
  unfold call at 1 2. cbn [page].
  destruct (List.find _ _) as [e|]; [by destruct (Hlookup e)|].
  reflexivity.
Qed.

(** The copy's three outcomes. *)
Lemma showElementDimensions_page_outcome (options : option Options) (st : Browser) :
  showElementDimensions_page options st
  = match lookup (resolve_selector options) (page st) with
    | Rejected =>
        Throw (SyntaxError (resolve_selector options))
          {| page := page st;
             trace := trace st ++ [CallQuerySelector (resolve_selector options)] |}
    | NoMatch => Normal () (error_displayed options st)
    | Match e => Normal () (live_page options e st)
    end.
Proof.
  destruct (lookup _ _) as [| |e] eqn:Hlookup.
  - rewrite showElementDimensions_page_other by (by rewrite Hlookup).
    by rewrite showElementDimensions_outcome, Hlookup.
  - rewrite showElementDimensions_page_other by (by rewrite Hlookup).
    by rewrite showElementDimensions_outcome, Hlookup.
  - unfold lookup in Hlookup.
    destruct (parse_selector _) as [matches|] eqn:Hparse; [|done].
    destruct (List.find _ _) as [e'|] eqn:Hfind; [|done].
    injection Hlookup as ->. by apply (showElementDimensions_page_found _ _ matches).
Qed.

Lemma nodes_live_page (options : option Options) (e : NodeId) (st : Browser) :
  let cl := render_closure options e (page st) in
  let p1 := with_overlay (new_node (page st)) (resolve_color options) NoContent (page st) in
  nodes (page (live_page options e st))
  = <[new_node (page st) :=
        overlay (resolve_color options) (InnerHTML (readout_page cl p1))]> (nodes (page st)).
Proof.
  intros cl p1. unfold live_page. cbn [page with_listeners nodes].
  rewrite nodes_observed.
  unfold rendered_page. cbn [nodes with_nodes with_overlay with_tree].
  by rewrite alter_insert_eq.
Qed.

Lemma listeners_live_page (options : option Options) (e : NodeId) (st : Browser) :
  listeners (page (live_page options e st))
  = listeners (page st) ++ [("resize", render_closure options e (page st))].
Proof.
  unfold live_page, observed. cbn [page with_listeners listeners].
  by destruct (has_ResizeObserver _).
Qed.

(** The two blocks differ where the first line starts. *)
Lemma readout_page_differs (cl : Closure) (p : Page) : readout_page cl p ≠ readout cl p.
Proof.
  unfold readout_page, readout, two_lines_page, two_lines. cbv zeta.
  change (spaces 12) with (spaces 10 +:+ "  ").
  rewrite !append_assoc.
  intros Heq. apply (f_equal (λ s, String.get 11 s)) in Heq.
  revert Heq. unfold LF. rewrite !append_cons. simpl. done.
Qed.

(** X10.  The function the demonstration page inlines does what the
    file's function does, call for call, but for the indentation inside
    the block it writes: when the lookup throws or finds nothing the two
    have the same outcome; when it finds an element both return, make
    the same calls around the one assignment of the block, leave the
    same tree, viewport, listeners and observers and the same overlay
    but for its content, and the two blocks, made of the same readings,
    are different strings. *)
Theorem the_page_s_copy_differs_by_indentation (options : option Options)
    (st : Browser) :
  match lookup (resolve_selector options) (page st) with
  | Match e =>
      let b := new_node (page st) in
      let color := resolve_color options in
      let cl := render_closure options e (page st) in
      let p1 := with_overlay b color NoContent (page st) in
      ∃ st1 st2 before after,
        showElementDimensions options st = Normal () st1
        ∧ showElementDimensions_page options st = Normal () st2
        ∧ trace st1 = before ++ CallSetInnerHTML b (readout cl p1) :: after
        ∧ trace st2 = before ++ CallSetInnerHTML b (readout_page cl p1) :: after
        ∧ nodes (page st1) = <[b := overlay color (InnerHTML (readout cl p1))]> (nodes (page st))
        ∧ nodes (page st2)
          = <[b := overlay color (InnerHTML (readout_page cl p1))]> (nodes (page st))
        ∧ same_frame (page st1) (page st2)
        ∧ readout_page cl p1 ≠ readout cl p1
  | _ => showElementDimensions_page options st = showElementDimensions options st
  end.
Proof.
  destruct (lookup _ _) as [| |e] eqn:Hlookup;
    [apply showElementDimensions_page_other; by rewrite Hlookup..|].
  intros b color cl p1.
  exists (live options e st), (live_page options e st),
    (trace st ++ CallQuerySelector (resolve_selector options) :: overlay_calls b color
       ++ [CallAppendChild b; CallInnerWidth; CallInnerHeight;
           CallGetBoundingClientRect e]),
    (observe_calls cl (page st) ++ [CallAddEventListener "resize" cl]).
  split; [by rewrite showElementDimensions_outcome, Hlookup|].
  split; [by rewrite showElementDimensions_page_outcome, Hlookup|].
  split; [unfold live; cbn [trace]; by rewrite <- !app_assoc|].
  split; [unfold live_page; cbn [trace]; by rewrite <- !app_assoc|].
  split; [apply nodes_live|].
  split; [apply nodes_live_page|].
  split; [|apply readout_page_differs].
  unfold same_frame, live, live_page, observed.
  cbn [page]. change (has_ResizeObserver (rendered _ _)) with (has_ResizeObserver (page st)).
  change (has_ResizeObserver (rendered_page _ _)) with (has_ResizeObserver (page st)).
  destruct (has_ResizeObserver (page st)); cbn; by rewrite ?dom_alter_L.
Qed.

End Copy.

(** ** The two calls at startup *)

Section Startup.
Context `{Host}.

(** X11.  Once the document is parsed the file's script looks up
    [main] and, unless the browser rejects that, adds one overlay in the
    default color [#989898]: with the readout of the first [main]
    element and a [resize] listener for it when there is one, with the
    message and no listener when there is none. *)
Theorem the_file_s_startup_call (st st' : Browser) :
  on_DOMContentLoaded st = Normal () st' →
  let b := new_node (page st) in
  ∃ o rest,
    trace st' = trace st ++ CallQuerySelector "main" :: rest
    ∧ nodes (page st') = <[b := o]> (nodes (page st))
    ∧ tagName o = "div" ∧ className o = "sizing-results-bloc"
    ∧ style o = overlay_style "#989898"
    ∧ match lookup "main" (page st) with
      | Match e =>
          let cl := {| cl_element := e; cl_resultsBloc := b; cl_selector := "main" |} in
          content o = InnerHTML (readout cl (with_overlay b "#989898" NoContent (page st)))
          ∧ listeners (page st') = listeners (page st) ++ [("resize", cl)]
      | _ =>
          content o = TextContent (not_present "main")
          ∧ listeners (page st') = listeners (page st)
      end.
Proof.
  unfold on_DOMContentLoaded. rewrite showElementDimensions_outcome.
  set (options := Some _).
  change (resolve_selector options) with "main".
  destruct (lookup "main" (page st)) as [| |e] eqn:Hlookup; [done|..];
    intros [= <-].
  - eexists _, _. split; [reflexivity|].
    split; [apply nodes_error_displayed|]. by repeat split.
  - eexists _, _. split; [reflexivity|].
    split; [apply nodes_live|]. do 3 (split; [done|]).
    split; [done|]. apply listeners_live.
Qed.

(** X12.  Once the document is parsed the page's script looks up
    [.maincontent] and, unless the browser rejects that, adds one
    overlay in green: with the readout of the first element of that
    class, in the page's indentation, and a [resize] listener for it
    when there is one, with the message and no listener when there is
    none. *)
Theorem the_page_s_startup_call (st st' : Browser) :
  on_DOMContentLoaded_page st = Normal () st' →
  let b := new_node (page st) in
  ∃ o rest,
    trace st' = trace st ++ CallQuerySelector ".maincontent" :: rest
    ∧ nodes (page st') = <[b := o]> (nodes (page st))
    ∧ tagName o = "div" ∧ className o = "sizing-results-bloc"
    ∧ style o = overlay_style "green"
    ∧ match lookup ".maincontent" (page st) with
      | Match e =>
          let cl := {| cl_element := e; cl_resultsBloc := b;
                       cl_selector := ".maincontent" |} in
          content o
          = InnerHTML (readout_page cl (with_overlay b "green" NoContent (page st)))
          ∧ listeners (page st') = listeners (page st) ++ [("resize", cl)]
      | _ =>
          content o = TextContent (not_present ".maincontent")
          ∧ listeners (page st') = listeners (page st)
      end.
Proof.
  unfold on_DOMContentLoaded_page. rewrite showElementDimensions_page_outcome.
  set (options := Some _).
  change (resolve_selector options) with ".maincontent".
  destruct (lookup ".maincontent" (page st)) as [| |e] eqn:Hlookup; [done|..];
    intros [= <-].
  - eexists _, _. split; [reflexivity|].
    split; [apply nodes_error_displayed|]. by repeat split.
  - eexists _, _. split; [reflexivity|].
    split; [apply nodes_live_page|]. do 3 (split; [done|]).
    split; [done|]. apply listeners_live_page.
Qed.

End Startup.

(** ** What accumulates, and what a notification does *)

Section Accumulates.
Context `{Host}.






End Accumulates.

(** ** More on the demonstration page *)


(** X2 on the page: the demonstration page is well-formed, and so it is
    after the session. *)
Lemma well_formed_forever_witness :
  well_formed (page demo_page)
  ∧ well_formed (page (run (H := demo_host) demo_session demo_page)).
Proof.
  assert (well_formed (page demo_page)) as Hwf
    by (apply (bool_decide_unpack _); by vm_compute).
  split; [exact Hwf|].
  exact (well_formed_forever (H := demo_host) demo_session demo_page Hwf).
Defined.

(** X3 on the page: a resize to 1024 by 768 after the call that finds
    the first container. *)
Lemma a_viewport_resize_reaches_every_overlay_witness :
  let cl := render_closure (demo_options ".maincontent") 3%nat (page demo_page) in
  well_formed (page watched_page)
  ∧ ("resize", cl) ∈ listeners (page watched_page)
  ∧ ∃ st' p,
      viewport_resized (H := demo_host) 1024 768 watched_page = Normal () st'
      ∧ same_frame (with_viewport 1024 768 (page watched_page)) p
      ∧ content <$> nodes (page st') !! 6%nat
        = Some (InnerHTML
                  (two_lines ".maincontent" 1024 768
                     (toFixed (width (bounding_box (Host := demo_host) p 3%nat)) 2)
                     (toFixed (height (bounding_box (Host := demo_host) p 3%nat)) 2))).
Proof.
  intros cl.
  assert (well_formed (page watched_page)) as Hwf
    by (apply (bool_decide_unpack _); by vm_compute).
  assert (("resize", cl) ∈ listeners (page watched_page)) as Hin
    by (apply (bool_decide_unpack _); by vm_compute).
  split; [exact Hwf|]. split; [exact Hin|].
  exact (a_viewport_resize_reaches_every_overlay (H := demo_host) 1024 768
           watched_page cl Hwf Hin).
Defined.

(** X4 on the page: a resize of the first container after the call that
    finds it. *)
Lemma an_element_resize_reaches_its_overlays_witness :
  let cl := render_closure (demo_options ".maincontent") 3%nat (page demo_page) in
  let o := {| ro_callback := cl; ro_targets := [3%nat] |} in
  well_formed (page watched_page)
  ∧ o ∈ observers (page watched_page)
  ∧ 3%nat ∈ ro_targets o
  ∧ ∃ st' p,
      element_resized (H := demo_host) 3%nat watched_page = Normal () st'
      ∧ same_frame (page watched_page) p
      ∧ content <$> nodes (page st') !! 6%nat
        = Some (InnerHTML
                  (two_lines ".maincontent" 1280 720
                     (toFixed (width (bounding_box (Host := demo_host) p 3%nat)) 2)
                     (toFixed (height (bounding_box (Host := demo_host) p 3%nat)) 2))).
Proof.
  intros cl o.
  assert (well_formed (page watched_page)) as Hwf
    by (apply (bool_decide_unpack _); by vm_compute).
  assert (o ∈ observers (page watched_page)) as Hin by (vm_compute; constructor).
  assert (3%nat ∈ ro_targets o) as Htarget
    by (apply (bool_decide_unpack _); by vm_compute).
  split; [exact Hwf|]. split; [exact Hin|]. split; [exact Htarget|].
  destruct (an_element_resize_reaches_its_overlays (H := demo_host) 3%nat
              watched_page o Hwf Hin Htarget) as (st' & p & Hrun & Hframe & _ & Hshown).
  exists st', p. split; [exact Hrun|]. split; [exact Hframe | exact Hshown].
Defined.


(** X6 on the page: [main] is missing there, and the message stays
    through a call that finds the first container and two
    notifications. *)
Lemma the_message_is_never_replaced_witness :
  let evs := [Called (demo_options ".maincontent"); ViewportResized 1024 768;
              ElementResized 3%nat] in
  well_formed (page demo_page)
  ∧ lookup (H := demo_host) "main" (page demo_page) = NoMatch
  ∧ nodes (page (run (H := demo_host) (Called (demo_options "main") :: evs) demo_page))
      !! 6%nat
    = Some (overlay "#989898" (TextContent (not_present "main"))).
Proof.
  intros evs.
  assert (well_formed (page demo_page)) as Hwf
    by (apply (bool_decide_unpack _); by vm_compute).
  assert (lookup (H := demo_host) "main" (page demo_page) = NoMatch) as Hmissing
    by (by vm_compute).
  split; [exact Hwf|]. split; [exact Hmissing|].
  exact (the_message_is_never_replaced (H := demo_host) (demo_options "main") evs
           demo_page Hwf Hmissing).
Defined.


(** X8 on the page: the layout of the examples does not depend on what
    the overlay holds, so a second render changes nothing. *)
Lemma a_second_render_changes_nothing_witness :
  let cl := render_closure (demo_options ".maincontent") 3%nat (page demo_page) in
  bounding_box (Host := demo_host) (rendered (H := demo_host) cl (page watched_page)) 3%nat
  = bounding_box (Host := demo_host) (page watched_page) 3%nat
  ∧ ∃ st1 st2,
      updateDimensions (H := demo_host) cl watched_page = Normal () st1
      ∧ updateDimensions (H := demo_host) cl st1 = Normal () st2
      ∧ page st2 = page st1.
Proof.
  intros cl.
  assert (bounding_box (Host := demo_host)
            (rendered (H := demo_host) cl (page watched_page)) 3%nat
          = bounding_box (Host := demo_host) (page watched_page) 3%nat) as Hbox
    by (by vm_compute).
  split; [exact Hbox|].
  destruct (a_second_render_changes_nothing (H := demo_host) cl watched_page Hbox)
    as (st1 & st2 & Hrun1 & Hrun2 & Hsame & _).
  exists st1, st2. split; [exact Hrun1|]. split; [exact Hrun2 | exact Hsame].
Defined.

(** X9 for the first container's width, 3200/3 px, and 1066.67 px. *)
Lemma sizes_shown_alike_are_within_a_hundredth_witness :
  (0 <= 3200 # 3)%Q ∧ (3200 # 3 < inject_Z (10 ^ 21))%Q
  ∧ (0 <= 106667 # 100)%Q ∧ (106667 # 100 < inject_Z (10 ^ 21))%Q
  ∧ (toFixed (3200 # 3) 2 = toFixed (106667 # 100) 2
     ↔ hundredths (3200 # 3) = hundredths (106667 # 100)).
Proof.
  assert (0 <= 3200 # 3)%Q as Hx0 by (by vm_compute).
  assert (3200 # 3 < inject_Z (10 ^ 21))%Q as Hx by (by vm_compute).
  assert (0 <= 106667 # 100)%Q as Hy0 by (by vm_compute).
  assert (106667 # 100 < inject_Z (10 ^ 21))%Q as Hy by (by vm_compute).
  do 4 (split; [assumption|]).
  exact (proj1 (sizes_shown_alike_are_within_a_hundredth _ _ Hx0 Hx Hy0 Hy)).
Defined.

(** X11 on the page: it has no [main] element, so the file's script
    would show the message there. *)
Lemma the_file_s_startup_call_witness :
  on_DOMContentLoaded (H := demo_host) demo_page
  = Normal () (error_displayed
                 (Some {| opt_selector := Some "main"; opt_color := None |}) demo_page)
  ∧ ∃ o, nodes (page (error_displayed
                        (Some {| opt_selector := Some "main"; opt_color := None |})
                        demo_page))
         = <[6%nat := o]> (nodes (page demo_page))
         ∧ style o = overlay_style "#989898"
         ∧ content o = TextContent (not_present "main").
Proof.
  assert (on_DOMContentLoaded (H := demo_host) demo_page
          = Normal () (error_displayed
                         (Some {| opt_selector := Some "main"; opt_color := None |})
                         demo_page)) as Hcall by (by vm_compute).
  split; [exact Hcall|].
  destruct (the_file_s_startup_call (H := demo_host) _ _ Hcall)
    as (o & rest & _ & Hnodes & _ & _ & Hstyle & Hshown).
  assert (lookup (H := demo_host) "main" (page demo_page) = NoMatch) as Hmissing
    by (by vm_compute).
  rewrite Hmissing in Hshown. destruct Hshown as [Hcontent _].
  exists o. split; [exact Hnodes|]. split; [exact Hstyle | exact Hcontent].
Defined.

(** X12 on the page: the page's script finds the first container and
    shows its readout in green. *)
Lemma the_page_s_startup_call_witness :
  on_DOMContentLoaded_page (H := demo_host) demo_page
  = Normal () (live_page (H := demo_host)
                 (Some {| opt_selector := Some ".maincontent"; opt_color := Some "green" |})
                 3%nat demo_page)
  ∧ ∃ o, nodes (page (live_page (H := demo_host)
                        (Some {| opt_selector := Some ".maincontent";
                                 opt_color := Some "green" |}) 3%nat demo_page))
         = <[6%nat := o]> (nodes (page demo_page))
         ∧ style o = overlay_style "green"
         ∧ content o
           = InnerHTML (two_lines_page ".maincontent" 1280 720 "1066.67" "200.00").
Proof.
  assert (on_DOMContentLoaded_page (H := demo_host) demo_page
          = Normal () (live_page (H := demo_host)
                         (Some {| opt_selector := Some ".maincontent";
                                  opt_color := Some "green" |}) 3%nat demo_page))
    as Hcall by (by vm_compute).
  split; [exact Hcall|].
  destruct (the_page_s_startup_call (H := demo_host) _ _ Hcall)
    as (o & rest & _ & Hnodes & _ & _ & Hstyle & Hshown).
  assert (lookup (H := demo_host) ".maincontent" (page demo_page) = Match 3%nat)
    as Hfound by (by vm_compute).
  rewrite Hfound in Hshown. destruct Hshown as [Hcontent _].
  exists o. split; [exact Hnodes|]. split; [exact Hstyle|].
  rewrite Hcontent. by vm_compute.
Defined.

